(** * GPT-5 multimodal chat API: request shaping and conversation bookkeeping

    A shallow embedding of [src/main.py] (the FastAPI handlers [text_chat],
    [image_upload_chat], [image_base64_chat], [multimodal_chat] and the
    helpers [encode_image_to_base64], [get_preset_prompt]).

    Python values that travel as JSON are modelled by the inductive [json];
    exceptions by [exn]; the handlers run in a small monad that threads the
    log of upstream completion calls and propagates exceptions, so that
    "no upstream call was attempted" is a statement about the log. *)

From Stdlib Require Import String Ascii List ZArith NArith Bool Lia QArith.
From Stdlib Require Import Strings.Byte DecimalString.
Import ListNotations.
Set Warnings "-register-all".
Local Close Scope Q_scope.
Local Open Scope string_scope.
Local Open Scope list_scope.

(** ** Python values *)

Module Py.

(** Values produced by [json.loads] and sent as [messages]: a Python dict is
    an insertion-ordered association list. *)
Inductive json : Type :=
| JNull
| JBool (b : bool)
| JInt (n : Z)
| JFloat (literal : string)
| JStr (s : string)
| JArr (items : list json)
| JObj (fields : list (string * json)).

Definition pydict : Type := list (string * json).

(** Exceptions the handlers raise or meet.  [HTTPException] is FastAPI's;
    [ValidationError] is pydantic's, for a value that does not fit the model
    named [model]; [OtherException] is any other subclass of Python's
    [Exception]; [NonException] is a [BaseException] that is not an
    [Exception] ([KeyboardInterrupt], [SystemExit], [asyncio.CancelledError]). *)
Inductive exn : Type :=
| HTTPException (status_code : nat) (detail : string)
| JSONDecodeError (msg : string)
| AttributeError (msg : string)
| IndexError (msg : string)
| ValidationError (model : string)
| OtherException (cls msg : string)
| NonException (cls msg : string).

(** [isinstance(e, Exception)]. *)
Definition is_Exception (e : exn) : bool :=
  match e with
  | NonException _ _ => false
  | _ => true
  end.

(** [bool(x)] for an [Optional[str]]: [None] and [""] are falsy. *)
Definition truthy (o : option string) : bool :=
  match o with
  | Some s => negb (s =? "")
  | None => false
  end.

(** [s.startswith(p)]. *)
Definition startswith (s p : string) : bool := String.prefix p s.

(** [d.get(k, default)] on a dict with string values. *)
Fixpoint dict_get (d : list (string * string)) (k : string) (default : string) : string :=
  match d with
  | [] => default
  | (k', v) :: rest => if k' =? k then v else dict_get rest k default
  end.

(** [k in d]. *)
Fixpoint dict_mem (d : list (string * string)) (k : string) : bool :=
  match d with
  | [] => false
  | (k', _) :: rest => (k' =? k) || dict_mem rest k
  end.

(** The name Python prints for the type of a value. *)
Definition type_name (v : json) : string :=
  match v with
  | JNull => "NoneType"
  | JBool _ => "bool"
  | JInt _ => "int"
  | JFloat _ => "float"
  | JStr _ => "str"
  | JArr _ => "list"
  | JObj _ => "dict"
  end.

(** [v.append(x)]: only a list has the method; on anything else the
    attribute lookup raises. *)
Definition append (v x : json) : exn + json :=
  match v with
  | JArr items => inr (JArr (items ++ [x]))
  | _ => inl (AttributeError
                ("'" ++ type_name v ++ "' object has no attribute 'append'"))
  end.

(** *** [base64.b64encode(data).decode('utf-8')] *)

Definition b64_alphabet : string :=
  "ABCDEFGHIJKLMNOPQRSTUVWXYZabcdefghijklmnopqrstuvwxyz0123456789+/".

Definition b64_char (n : N) : ascii :=
  match String.get (N.to_nat n) b64_alphabet with
  | Some c => c
  | None => "="%char
  end.

Fixpoint b64encode (data : list byte) : string :=
  match data with
  | [] => ""
  | [a] =>
      let x := Byte.to_N a in
      String (b64_char (x / 4))
        (String (b64_char ((x mod 4) * 16)) "==")
  | [a; b] =>
      let x := Byte.to_N a in
      let y := Byte.to_N b in
      String (b64_char (x / 4))
        (String (b64_char ((x mod 4) * 16 + y / 16))
           (String (b64_char ((y mod 16) * 4)) "="))
  | a :: b :: c :: rest =>
      let x := Byte.to_N a in
      let y := Byte.to_N b in
      let z := Byte.to_N c in
      String (b64_char (x / 4))
        (String (b64_char ((x mod 4) * 16 + y / 16))
           (String (b64_char ((y mod 16) * 4 + z / 64))
              (String (b64_char (z mod 64)) (b64encode rest))))
  end%N.

End Py.
Import Py.


(** ** The upstream client and the handler monad *)

(** The keyword arguments of one [client.chat.completions.create] call.  The
    value of [messages] is recorded as it is at the time of the call. *)
Record CreateCall : Type := {
  model : string;
  messages : json;
  max_tokens : Z;
  temperature : Q
}.

(** What the handlers read of the upstream answer:
    [response.choices[i].message.content], an [Optional[str]]. *)
Record Choice : Type := { message_content : option string }.
Record ChatCompletion : Type := { choices : list Choice }.

(** A handler threads the log of upstream calls made so far and either
    returns a value or raises; the log survives a raise. *)
Definition Log : Type := list CreateCall.
Definition M (A : Type) : Type := Log -> (exn + A) * Log.

Definition ret {A : Type} (a : A) : M A := fun l => (inr a, l).
Definition raise {A : Type} (e : exn) : M A := fun l => (inl e, l).
Definition lift {A : Type} (r : exn + A) : M A := fun l => (r, l).
Definition bind {A B : Type} (m : M A) (k : A -> M B) : M B :=
  fun l =>
    match m l with
    | (inr a, l') => k a l'
    | (inl e, l') => (inl e, l')
    end.

(** [try: m  except Exception as e: h e]: an exception that is not an
    [Exception] is not caught. *)
Definition try_except {A : Type} (m : M A) (h : exn -> M A) : M A :=
  fun l =>
    match m l with
    | (inl e, l') => if is_Exception e then h e l' else (inl e, l')
    | (inr a, l') => (inr a, l')
    end.

(** [try: m  except json.JSONDecodeError: h]: other exceptions pass. *)
Definition try_except_JSONDecodeError {A : Type} (m : M A) (h : M A) : M A :=
  try_except m (fun e =>
    match e with
    | JSONDecodeError _ => h
    | _ => raise e
    end).

Declare Scope handler_scope.
Delimit Scope handler_scope with handler.
Notation "x <- m ;; k" := (bind m (fun x => k))
  (at level 61, m at next level, right associativity) : handler_scope.
Notation "m ;; k" := (bind m (fun _ => k))
  (at level 61, right associativity) : handler_scope.
Local Open Scope handler_scope.

(** A request starts with an empty log. *)
Definition run {A : Type} (m : M A) : (exn + A) * Log := m [].

(** The status the server answers with: 200 for a returned value, the code
    of a raised [HTTPException], 500 for any other exception (Starlette's
    error middleware for an [Exception], the uvicorn request cycle for any
    other [BaseException]). *)
Definition http_status {A : Type} (r : exn + A) : nat :=
  match r with
  | inr _ => 200
  | inl (HTTPException code _) => code
  | inl _ => 500
  end.

(** ** Pydantic models *)

Module TextChatRequest.
Record t : Type := {
  message : string;
  conversation_history : option (list pydict)
}.
End TextChatRequest.

Module TextChatResponse.
Record t : Type := {
  response : string;
  conversation_history : list pydict
}.
(** The constructor validates [response: str]. *)
Definition make (response : option string) (conversation_history : list pydict)
  : exn + t :=
  match response with
  | Some r => inr {| response := r; conversation_history := conversation_history |}
  | None => inl (ValidationError "TextChatResponse")
  end.
End TextChatResponse.

Module ImageAnalysisRequest.
Record t : Type := {
  image_base64 : string;
  prompt : option string;
  preset_action : option string
}.

(** A field of the JSON body: left out, or given (as [null] or a string). *)
Inductive field : Type :=
| Omitted
| Given (v : option string).

Record body : Type := {
  body_image_base64 : string;
  body_prompt : field;
  body_preset_action : field
}.

(** Validation fills the class defaults in:
    [prompt: Optional[str] = "Analyze this image"],
    [preset_action: Optional[str] = None]. *)
Definition validate (b : body) : t :=
  {| image_base64 := body_image_base64 b;
     prompt := match body_prompt b with
               | Omitted => Some "Analyze this image"
               | Given v => v
               end;
     preset_action := match body_preset_action b with
                      | Omitted => None
                      | Given v => v
                      end |}.
End ImageAnalysisRequest.

Module ImageAnalysisResponse.
Record t : Type := {
  response : string;
  analysis_type : string
}.
(** The constructor validates [response: str]. *)
Definition make (response : option string) (analysis_type : string) : exn + t :=
  match response with
  | Some r => inr {| response := r; analysis_type := analysis_type |}
  | None => inl (ValidationError "ImageAnalysisResponse")
  end.
End ImageAnalysisResponse.

(** The dict [multimodal_chat] returns. *)
Module MultimodalResponse.
Record t : Type := {
  response : option string;
  conversation_history : json;
  has_image : bool
}.
End MultimodalResponse.

(** FastAPI's [UploadFile]: the declared content type of the part ([None]
    when the part has no such header) and what [file.read()] does. *)
Record UploadFile : Type := {
  content_type : option string;
  file_read : exn + list byte
}.

(** ** Helpers of [main.py] *)

(** [if x:] on an [Optional[str]] gives the string when it is not empty. *)
Definition truthy_str (o : option string) : option string :=
  match o with
  | Some s => if s =? "" then None else Some s
  | None => None
  end.

(** [x or default]. *)
Definition py_or (o : option string) (default : string) : string :=
  match truthy_str o with
  | Some s => s
  | None => default
  end.

(** [image.content_type.startswith(p)]. *)
Definition content_type_startswith (image : UploadFile) (p : string) : exn + bool :=
  match content_type image with
  | Some ct => inr (startswith ct p)
  | None => inl (AttributeError "'NoneType' object has no attribute 'startswith'")
  end.

Definition presets : list (string * string) :=
  [ ("analyze", "Analyze this image in detail. Describe what you see, identify key elements, colors, composition, and any notable features.");
    ("summarize", "Provide a concise summary of what's shown in this image in 2-3 sentences.");
    ("describe", "Describe this image as if you're explaining it to someone who cannot see it. Be detailed and specific.");
    ("extract_text", "Extract and transcribe any text visible in this image. If no text is present, say 'No text detected'.");
    ("identify_objects", "Identify and list all the objects, people, or items you can see in this image.");
    ("explain_context", "Explain the context and setting of this image. What's happening? Where might this be taken?") ].

Definition get_preset_prompt (action : string) : string :=
  dict_get presets action "Analyze this image".

(** The content parts and turns the handlers build. *)
Definition text_part (text : string) : json :=
  JObj [("type", JStr "text"); ("text", JStr text)].

Definition image_url_part (base64_image : string) : json :=
  JObj [("type", JStr "image_url");
        ("image_url", JObj [("url", JStr ("data:image/jpeg;base64," ++ base64_image))])].

Definition opt_str (o : option string) : json :=
  match o with
  | Some s => JStr s
  | None => JNull
  end.

(** What [str(e)] gives for the exceptions of the installed libraries, whose
    text depends on their versions: FastAPI's [HTTPException] (from its status
    code and detail) and pydantic's [ValidationError] for a [response] that is
    [None] (from the name of the model). *)
Record LibraryText : Type := {
  str_HTTPException : nat -> string -> string;
  str_ValidationError : string -> string
}.

Section Handlers.

(** The collaborators the handlers call: the upstream completion endpoint,
    [json.loads], and the texts of the library exceptions. *)
Variable create : CreateCall -> exn + ChatCompletion.
Variable json_loads : string -> exn + json.
Variable texts : LibraryText.

(** [str(e)]. *)
Definition str (e : exn) : string :=
  match e with
  | HTTPException code detail => str_HTTPException texts code detail
  | JSONDecodeError msg => msg
  | AttributeError msg => msg
  | IndexError msg => msg
  | ValidationError model => str_ValidationError texts model
  | OtherException _ msg => msg
  | NonException _ msg => msg
  end.

(** [client.chat.completions.create(model=.., messages=.., max_tokens=2048,
    temperature=0.7)]: the call is logged, then answers or raises. *)
Definition chat_completions_create (model : string) (messages : json) : M ChatCompletion :=
  fun l =>
    let call := {| model := model; messages := messages;
                   max_tokens := 2048; temperature := (7 # 10)%Q |} in
    (create call, l ++ [call]).

(** [response.choices[0].message.content]. *)
Definition first_content (response : ChatCompletion) : exn + option string :=
  match choices response with
  | c :: _ => inr (message_content c)
  | [] => inl (IndexError "list index out of range")
  end.

Definition encode_image_to_base64 (image_file : UploadFile) : M string :=
  try_except
    (image_data <- lift (file_read image_file) ;;
     let base64_string := b64encode image_data in
     ret base64_string)
    (fun e => raise (HTTPException 400 ("Error processing image: " ++ str e))).

(** *** [POST /chat/text] *)
Definition text_chat (request : TextChatRequest.t) : M TextChatResponse.t :=
  try_except
    (let messages :=
       match TextChatRequest.conversation_history request with
       | Some (t :: h) => t :: h
       | _ => []
       end in
     let messages :=
       messages ++ [[("role", JStr "user");
                     ("content", JStr (TextChatRequest.message request))]] in
     response <- chat_completions_create "gpt-4o" (JArr (map JObj messages)) ;;
     assistant_response <- lift (first_content response) ;;
     let messages :=
       messages ++ [[("role", JStr "assistant");
                     ("content", opt_str assistant_response)]] in
     lift (TextChatResponse.make assistant_response messages))
    (fun e => raise (HTTPException 500 ("Error processing chat: " ++ str e))).

(** *** [POST /chat/image-upload] *)
Definition image_upload_chat (image : UploadFile) (prompt preset_action : option string)
  : M ImageAnalysisResponse.t :=
  try_except
    (is_image <- lift (content_type_startswith image "image/") ;;
     (if negb is_image
      then raise (HTTPException 400 "File must be an image")
      else ret tt) ;;
     base64_image <- encode_image_to_base64 image ;;
     let '(final_prompt, analysis_type) :=
       match truthy_str preset_action with
       | Some preset_action => (get_preset_prompt preset_action, preset_action)
       | None =>
           match truthy_str prompt with
           | Some prompt => (prompt, "custom")
           | None => ("Analyze this image", "default")
           end
       end in
     let messages :=
       JArr [JObj [("role", JStr "user");
                   ("content", JArr [text_part final_prompt;
                                     image_url_part base64_image])]] in
     response <- chat_completions_create "gpt-4o" messages ;;
     assistant_response <- lift (first_content response) ;;
     lift (ImageAnalysisResponse.make assistant_response analysis_type))
    (fun e => raise (HTTPException 500 ("Error processing image: " ++ str e))).

(** *** [POST /chat/image-base64] *)
Definition image_base64_chat (request : ImageAnalysisRequest.t)
  : M ImageAnalysisResponse.t :=
  try_except
    (let '(final_prompt, analysis_type) :=
       match truthy_str (ImageAnalysisRequest.preset_action request) with
       | Some preset_action => (get_preset_prompt preset_action, preset_action)
       | None =>
           (py_or (ImageAnalysisRequest.prompt request) "Analyze this image",
            if truthy (ImageAnalysisRequest.prompt request)
            then "custom" else "default")
       end in
     let messages :=
       JArr [JObj [("role", JStr "user");
                   ("content",
                    JArr [text_part final_prompt;
                          image_url_part (ImageAnalysisRequest.image_base64 request)])]] in
     response <- chat_completions_create "gpt-4o" messages ;;
     assistant_response <- lift (first_content response) ;;
     lift (ImageAnalysisResponse.make assistant_response analysis_type))
    (fun e => raise (HTTPException 500 ("Error processing image: " ++ str e))).

(** The endpoint as a client sees it: the JSON body is validated into the
    model, then handled. *)
Definition post_image_base64 (b : ImageAnalysisRequest.body) : M ImageAnalysisResponse.t :=
  image_base64_chat (ImageAnalysisRequest.validate b).

(** *** [POST /chat/multimodal] *)
Definition multimodal_chat (message : string) (image : option UploadFile)
    (conversation_history : option string) : M MultimodalResponse.t :=
  try_except
    (messages <-
       match truthy_str conversation_history with
       | Some conversation_history =>
           try_except_JSONDecodeError
             (lift (json_loads conversation_history))
             (ret (JArr []))
       | None => ret (JArr [])
       end ;;
     let content := [text_part message] in
     content <-
       match image with
       | Some image =>
           is_image <- lift (content_type_startswith image "image/") ;;
           if is_image
           then base64_image <- encode_image_to_base64 image ;;
                ret (content ++ [image_url_part base64_image])
           else ret content
       | None => ret content
       end ;;
     let current_message := JObj [("role", JStr "user"); ("content", JArr content)] in
     messages <- lift (append messages current_message) ;;
     response <- chat_completions_create "gpt-4o" messages ;;
     assistant_response <- lift (first_content response) ;;
     messages <- lift (append messages
                         (JObj [("role", JStr "assistant");
                                ("content", opt_str assistant_response)])) ;;
     ret {| MultimodalResponse.response := assistant_response;
            MultimodalResponse.conversation_history := messages;
            MultimodalResponse.has_image :=
              match image with Some _ => true | None => false end |})
    (fun e => raise (HTTPException 500
                       ("Error processing multimodal chat: " ++ str e))).

End Handlers.

(** ** The informational endpoints *)

(** [GET /]: the dict [root] returns. *)
Definition root : json :=
  JObj [("message", JStr "GPT-5 Multimodal Chat API");
        ("version", JStr "1.0.0");
        ("endpoints",
         JObj [("/chat/text", JStr "Text-only chat with GPT-5");
               ("/chat/image-upload", JStr "Upload image and chat with GPT-5");
               ("/chat/image-base64", JStr "Send base64 image and chat with GPT-5");
               ("/presets", JStr "Get available preset actions for images")])].

(** [GET /presets]: the dict [get_presets] returns. *)
Definition get_presets : json :=
  JObj [("presets",
         JArr [JObj [("key", JStr "analyze"); ("label", JStr "Analyze Image");
                     ("description", JStr "Detailed analysis of the image")];
               JObj [("key", JStr "summarize"); ("label", JStr "Summarize");
                     ("description", JStr "Quick summary of image content")];
               JObj [("key", JStr "describe"); ("label", JStr "Describe");
                     ("description", JStr "Detailed description for accessibility")];
               JObj [("key", JStr "extract_text"); ("label", JStr "Extract Text");
                     ("description", JStr "Extract any text from the image")];
               JObj [("key", JStr "identify_objects"); ("label", JStr "Identify Objects");
                     ("description", JStr "List objects and items in the image")];
               JObj [("key", JStr "explain_context"); ("label", JStr "Explain Context");
                     ("description", JStr "Explain the setting and context")]])].

(** The routes the decorators register on [app], in source order. *)
Definition routes : list (string * string) :=
  [ ("GET", "/");
    ("GET", "/presets");
    ("POST", "/chat/text");
    ("POST", "/chat/image-upload");
    ("POST", "/chat/image-base64");
    ("POST", "/chat/multimodal") ].

(** Reading the dicts above: [d[k]], the items of a list, a string. *)
Fixpoint fields_get (fields : list (string * json)) (k : string) : option json :=
  match fields with
  | [] => None
  | (k', v) :: rest => if k' =? k then Some v else fields_get rest k
  end.

Definition obj_get (v : json) (k : string) : option json :=
  match v with
  | JObj fields => fields_get fields k
  | _ => None
  end.

Definition arr_items (v : json) : list json :=
  match v with
  | JArr items => items
  | _ => []
  end.

Definition obj_keys (v : json) : list string :=
  match v with
  | JObj fields => map fst fields
  | _ => []
  end.

Definition str_field (v : json) (k : string) : option string :=
  match obj_get v k with
  | Some (JStr s) => Some s
  | _ => None
  end.

(** The keys [GET /presets] lists, in order, and the paths [GET /]
    advertises. *)
Definition listed_preset_keys : list (option string) :=
  match obj_get get_presets "presets" with
  | Some presets => map (fun entry => str_field entry "key") (arr_items presets)
  | None => []
  end.

Definition advertised_paths : list string :=
  match obj_get root "endpoints" with
  | Some endpoints => obj_keys endpoints
  | None => []
  end.

(** ** Vocabulary of the statements *)

(** The call every handler makes, for a given value of [messages]. *)
Definition gpt4o_call (messages : json) : CreateCall :=
  {| model := "gpt-4o"; messages := messages;
     max_tokens := 2048; temperature := (7 # 10)%Q |}.

(** The text of the upstream answer to a call, when there is one. *)
Definition upstream_reply (create : CreateCall -> exn + ChatCompletion)
    (call : CreateCall) : option string :=
  match create call with
  | inr response =>
      match choices response with
      | c :: _ => message_content c
      | [] => None
      end
  | inl _ => None
  end.

(** The history a text request carries ([None] counts as no history). *)
Definition prior_turns (h : option (list pydict)) : list pydict :=
  match h with
  | Some turns => turns
  | None => []
  end.

Definition user_text_turn (m : string) : pydict :=
  [("role", JStr "user"); ("content", JStr m)].

Definition assistant_turn (reply : string) : pydict :=
  [("role", JStr "assistant"); ("content", JStr reply)].

(** Collaborators used to run the handlers on concrete requests: an upstream
    that always answers [reply], the texts of one installation (Starlette's
    [HTTPException.__str__], pydantic 2's [ValidationError.__str__]), and a
    [json.loads] that knows the empty list only. *)
Definition stub_create (reply : string) : CreateCall -> exn + ChatCompletion :=
  fun _ => inr {| choices := [{| message_content := Some reply |}] |}.

Definition starlette_str (code : nat) (detail : string) : string :=
  NilEmpty.string_of_uint (Nat.to_uint code) ++ ": " ++ detail.

Definition pydantic_str (model : string) : string :=
  "1 validation error for " ++ model ++ String "010" "response"
  ++ String "010"
       "  Input should be a valid string [type=string_type, input_value=None, input_type=NoneType]"
  ++ String "010"
       "    For further information visit https://errors.pydantic.dev/2.11/v/string_type".

Definition stub_texts : LibraryText :=
  {| str_HTTPException := starlette_str; str_ValidationError := pydantic_str |}.

Definition stub_json_loads (s : string) : exn + json :=
  if s =? "[]" then inr (JArr [])
  else inl (JSONDecodeError "Expecting value: line 1 column 1 (char 0)").

(** A history string that is not JSON and on which the parser does not raise
    its decode error: 2000 opening brackets exhaust the recursion limit of
    [json.loads], which raises [RecursionError]. *)
Definition deep_brackets : string :=
  string_of_list_ascii (repeat "["%char 2000).

Definition deep_json_loads (s : string) : exn + json :=
  if s =? deep_brackets
  then inl (OtherException "RecursionError"
              "maximum recursion depth exceeded while decoding a JSON array from a unicode string")
  else stub_json_loads s.

(** The message list of an image request: one user turn, a text part
    followed by an image part. *)
Definition image_turns (text base64_image : string) : json :=
  JArr [JObj [("role", JStr "user");
              ("content",
               JArr [JObj [("type", JStr "text"); ("text", JStr text)];
                     JObj [("type", JStr "image_url");
                           ("image_url",
                            JObj [("url",
                                   JStr ("data:image/jpeg;base64,"
                                         ++ base64_image))])]])]].

(** The outcome of an image request once the instruction [text] and the tag
    [analysis_type] are chosen: one upstream call, whose answer (when it is a
    string) comes back with the tag. *)
Definition image_outcome (create : CreateCall -> exn + ChatCompletion)
    (texts : LibraryText)
    (text analysis_type base64_image : string)
  : (exn + ImageAnalysisResponse.t) * Log :=
  let call := gpt4o_call (image_turns text base64_image) in
  (match create call with
   | inr response =>
       match first_content response with
       | inr (Some reply) =>
           inr {| ImageAnalysisResponse.response := reply;
                  ImageAnalysisResponse.analysis_type := analysis_type |}
       | inr None =>
           inl (HTTPException 500
                  ("Error processing image: "
                   ++ str_ValidationError texts "ImageAnalysisResponse"))
       | inl e =>
           inl (HTTPException 500 ("Error processing image: " ++ str texts e))
       end
   | inl e =>
       if is_Exception e
       then inl (HTTPException 500 ("Error processing image: " ++ str texts e))
       else inl e
   end, [call]).

(** The selection policy in the words of the specification: a present
    (non-empty) preset key wins and tags the answer with the key, its
    instruction being the table's or else the default; otherwise a present,
    non-empty prompt is used verbatim with the tag "custom"; otherwise the
    default instruction with the tag "default". *)
Definition spec_select_instruction (preset_key prompt : option string)
  : string * string :=
  match truthy_str preset_key with
  | Some key =>
      (if dict_mem presets key
       then dict_get presets key ""
       else "Analyze this image", key)
  | None =>
      match truthy_str prompt with
      | Some p => (p, "custom")
      | None => ("Analyze this image", "default")
      end
  end.

(** An accepted upload: a declared content type starting with "image/" and
    a readable file. *)
Definition accepted_upload (image : UploadFile) (data : list byte) : Prop :=
  (exists ct, content_type image = Some ct /\ startswith ct "image/" = true)
  /\ file_read image = inr data.

(** The turns the handler starts from, when the history it was given is
    absent, empty, unparsable, or parses to a list. *)
Definition starting_turns (json_loads : string -> exn + json)
    (conversation_history : option string) : option (list json) :=
  match truthy_str conversation_history with
  | None => Some []
  | Some s =>
      match json_loads s with
      | inr (JArr items) => Some items
      | inl (JSONDecodeError _) => Some []
      | _ => None
      end
  end.

Definition user_turn (parts : list json) : json :=
  JObj [("role", JStr "user"); ("content", JArr parts)].

(** The outcome of a multimodal request that starts from [prior] and sends
    the content [parts]: one upstream call on [prior] extended by the user
    turn; the answer is appended as the assistant turn. *)
Definition multimodal_outcome (create : CreateCall -> exn + ChatCompletion)
    (texts : LibraryText)
    (prior parts : list json) (flag : bool)
  : (exn + MultimodalResponse.t) * Log :=
  let sent := prior ++ [user_turn parts] in
  let call := gpt4o_call (JArr sent) in
  (match create call with
   | inr response =>
       match first_content response with
       | inr reply =>
           inr {| MultimodalResponse.response := reply;
                  MultimodalResponse.conversation_history :=
                    JArr (sent ++ [JObj [("role", JStr "assistant");
                                         ("content", opt_str reply)]]);
                  MultimodalResponse.has_image := flag |}
       | inl e =>
           inl (HTTPException 500
                  ("Error processing multimodal chat: " ++ str texts e))
       end
   | inl e =>
       if is_Exception e
       then inl (HTTPException 500
                   ("Error processing multimodal chat: " ++ str texts e))
       else inl e
   end, [call]).

(** The content parts of the new user turn, and the flag that is returned,
    for an image the handler can read the content type of. *)
Definition multimodal_parts (message : string) (image : option UploadFile)
  : option (list json * bool) :=
  match image with
  | None => Some ([JObj [("type", JStr "text"); ("text", JStr message)]], false)
  | Some img =>
      match content_type img with
      | None => None
      | Some ct =>
          if startswith ct "image/"
          then match file_read img with
               | inr data =>
                   Some ([JObj [("type", JStr "text"); ("text", JStr message)];
                          JObj [("type", JStr "image_url");
                                ("image_url",
                                 JObj [("url",
                                        JStr ("data:image/jpeg;base64,"
                                              ++ b64encode data))])]],
                         true)
               | inl _ => None
               end
          else Some ([JObj [("type", JStr "text"); ("text", JStr message)]], true)
      end
  end.

(** ** Basic facts *)

Example b64encode_Man : b64encode [x4d; x61; x6e]%byte = "TWFu".
Proof. reflexivity. Qed.

Example b64encode_Ma : b64encode [x4d; x61]%byte = "TWE=".
Proof. reflexivity. Qed.

Example b64encode_M : b64encode [x4d]%byte = "TQ==".
Proof. reflexivity. Qed.

Example b64encode_high_bytes : b64encode [xff; xfe; xfd; xfc]%byte = "//79/A==".
Proof. reflexivity. Qed.

Example starlette_str_400 :
  starlette_str 400 "File must be an image" = "400: File must be an image".
Proof. reflexivity. Qed.

Lemma truthy_str_some (s : string) : s <> "" -> truthy_str (Some s) = Some s.
Proof.
  intros Hs. unfold truthy_str.
  destruct (String.eqb_spec s ""); [contradiction | reflexivity].
Qed.

Lemma truthy_str_empty : truthy_str (Some "") = None.
Proof. reflexivity. Qed.

Lemma truthy_truthy_str (o : option string) :
  truthy o = match truthy_str o with Some _ => true | None => false end.
Proof.
  destruct o as [s|]; [|reflexivity].
  unfold truthy, truthy_str. now destruct (s =? "").
Qed.

Lemma copy_or_empty (h : option (list pydict)) :
  match h with
  | Some (t :: r) => t :: r
  | _ => []
  end = prior_turns h.
Proof. destruct h as [[|t r]|]; reflexivity. Qed.

Lemma dict_get_not_mem (d : list (string * string)) (k default : string) :
  dict_mem d k = false -> dict_get d k default = default.
Proof.
  induction d as [|[k' v] rest IH]; cbn; [reflexivity|].
  destruct (k' =? k); cbn; [discriminate | exact IH].
Qed.

Lemma upstream_reply_some create call reply :
  upstream_reply create call = Some reply ->
  exists c rest,
    create call = inr {| choices := c :: rest |} /\ message_content c = Some reply.
Proof.
  unfold upstream_reply.
  destruct (create call) as [e|[chs]]; [discriminate|].
  destruct chs as [|c rest]; cbn; [discriminate|].
  intros H. now exists c, rest.
Qed.

(** ** [POST /chat/text] *)

(** What [text_chat] does, in one equation: one upstream call on the history
    extended by the user turn; the answer, when it is a string, is appended
    as the assistant turn. *)
Lemma text_chat_run create texts (m : string) (h : option (list pydict)) :
  run (text_chat create texts
         {| TextChatRequest.message := m; TextChatRequest.conversation_history := h |})
  = let sent := prior_turns h ++ [user_text_turn m] in
    let call := gpt4o_call (JArr (map JObj sent)) in
    (match create call with
     | inr response =>
         match first_content response with
         | inr (Some reply) =>
             inr {| TextChatResponse.response := reply;
                    TextChatResponse.conversation_history :=
                      sent ++ [assistant_turn reply] |}
         | inr None =>
             inl (HTTPException 500
                    ("Error processing chat: "
                     ++ str_ValidationError texts "TextChatResponse"))
         | inl e =>
             inl (HTTPException 500 ("Error processing chat: " ++ str texts e))
         end
     | inl e =>
         if is_Exception e
         then inl (HTTPException 500 ("Error processing chat: " ++ str texts e))
         else inl e
     end, [call]).
Proof.
  unfold run, text_chat, try_except, bind, chat_completions_create, lift, raise.
  cbn [TextChatRequest.message TextChatRequest.conversation_history].
  rewrite copy_or_empty. cbn [app].
  fold (user_text_turn m).
  fold (gpt4o_call (JArr (map JObj (prior_turns h ++ [user_text_turn m])))).
  cbv zeta.
  destruct (create _) as [e|response]; [destruct (is_Exception e); reflexivity|].
  unfold first_content.
  destruct (choices response) as [|[[reply|]] rest]; reflexivity.
Qed.

(** ** The image endpoints *)

Lemma dict_get_mem (d : list (string * string)) (k d1 d2 : string) :
  dict_mem d k = true -> dict_get d k d1 = dict_get d k d2.
Proof.
  induction d as [|[k' v] rest IH]; cbn; [discriminate|].
  destruct (k' =? k); cbn; [reflexivity | exact IH].
Qed.

Lemma get_preset_prompt_spec (key : string) :
  get_preset_prompt key =
  if dict_mem presets key then dict_get presets key "" else "Analyze this image".
Proof.
  unfold get_preset_prompt.
  destruct (dict_mem presets key) eqn:Hm.
  - now apply dict_get_mem.
  - now apply dict_get_not_mem.
Qed.

Lemma image_outcome_log create texts text tag b64 :
  snd (image_outcome create texts text tag b64)
  = [gpt4o_call (image_turns text b64)].
Proof. reflexivity. Qed.

Lemma image_outcome_tag create texts text tag b64 resp :
  fst (image_outcome create texts text tag b64) = inr resp ->
  ImageAnalysisResponse.analysis_type resp = tag.
Proof.
  unfold image_outcome; cbn [fst].
  destruct (create _) as [e|response];
    [destruct (is_Exception e); discriminate|].
  destruct (first_content response) as [e|[reply|]]; try discriminate.
  intros H; injection H as <-; reflexivity.
Qed.

Lemma image_outcome_reply create texts text tag b64 reply :
  upstream_reply create (gpt4o_call (image_turns text b64)) = Some reply ->
  fst (image_outcome create texts text tag b64)
  = inr {| ImageAnalysisResponse.response := reply;
           ImageAnalysisResponse.analysis_type := tag |}.
Proof.
  intros H. apply upstream_reply_some in H as (c & rest & Hc & Hr).
  unfold image_outcome; cbn [fst]. rewrite Hc. cbn. now rewrite Hr.
Qed.

(** After the request is shaped, what remains is a case analysis on the
    upstream answer. *)
Ltac upstream_cases create :=
  unfold image_outcome, chat_completions_create, gpt4o_call, image_turns,
    text_part, image_url_part;
  cbn [fst snd app is_Exception];
  match goal with
  | |- context [create ?c] =>
      let e := fresh "e" in
      destruct (create c) as [e|?response];
      [destruct (is_Exception e); reflexivity|];
      unfold first_content;
      destruct (choices _) as [|[[?reply|]] ?rest]; reflexivity
  end.

Lemma image_upload_run create texts image data prompt preset_action :
  accepted_upload image data ->
  run (image_upload_chat create texts image prompt preset_action)
  = image_outcome create texts
      (fst (spec_select_instruction preset_action prompt))
      (snd (spec_select_instruction preset_action prompt))
      (b64encode data).
Proof.
  intros [(ct & Hct & Hpre) Hread].
  unfold run, image_upload_chat, encode_image_to_base64,
    content_type_startswith, spec_select_instruction.
  unfold try_except, bind, lift, raise, ret.
  rewrite Hct, Hpre, Hread. cbn [negb].
  destruct (truthy_str preset_action) as [key|].
  - rewrite get_preset_prompt_spec. upstream_cases create.
  - destruct (truthy_str prompt) as [p|]; upstream_cases create.
Qed.

Lemma image_base64_run create texts b64 prompt preset_action :
  run (image_base64_chat create texts
         {| ImageAnalysisRequest.image_base64 := b64;
            ImageAnalysisRequest.prompt := prompt;
            ImageAnalysisRequest.preset_action := preset_action |})
  = image_outcome create texts
      (fst (spec_select_instruction preset_action prompt))
      (snd (spec_select_instruction preset_action prompt))
      b64.
Proof.
  unfold run, image_base64_chat, try_except, bind, lift, raise, ret,
    spec_select_instruction, py_or.
  cbn [ImageAnalysisRequest.image_base64 ImageAnalysisRequest.prompt
       ImageAnalysisRequest.preset_action].
  destruct (truthy_str preset_action) as [key|].
  - rewrite get_preset_prompt_spec. upstream_cases create.
  - rewrite truthy_truthy_str.
    destruct (truthy_str prompt) as [p|]; upstream_cases create.
Qed.

(** ** [POST /chat/multimodal] *)

Ltac upstream_cases_mm create :=
  unfold multimodal_outcome, chat_completions_create, gpt4o_call, user_turn,
    append, text_part, image_url_part;
  cbn [fst snd is_Exception];
  match goal with
  | |- context [create ?c] =>
      let e := fresh "e" in
      destruct (create c) as [e|?response];
      [destruct (is_Exception e); reflexivity|];
      unfold first_content;
      destruct (choices _) as [|[?reply] ?rest]; reflexivity
  end.

Lemma multimodal_run create json_loads texts message image history prior parts flag :
  starting_turns json_loads history = Some prior ->
  multimodal_parts message image = Some (parts, flag) ->
  run (multimodal_chat create json_loads texts message image history)
  = multimodal_outcome create texts prior parts flag.
Proof.
  unfold starting_turns, multimodal_parts. intros Hh Hp.
  unfold run, multimodal_chat, try_except_JSONDecodeError,
    encode_image_to_base64, content_type_startswith.
  unfold try_except, bind, lift, raise, ret.
  revert Hh.
  destruct (truthy_str history) as [s|];
    [destruct (json_loads s) as [[]|[]]|];
    intros Hh; try discriminate Hh; injection Hh as <-.
  all: cbn [app].
  all: revert Hp.
  all: destruct image as [img|];
    [destruct (content_type img) as [ct|];
     [destruct (startswith ct "image/");
      [destruct (file_read img) as [e|data]|]|]|];
    intros Hp; try discriminate Hp;
    pose proof (f_equal (fun o : option (list json * bool) =>
                           match o with Some pf => fst pf | None => [] end) Hp)
      as Hparts;
    pose proof (f_equal (fun o : option (list json * bool) =>
                           match o with Some pf => snd pf | None => false end) Hp)
      as Hflag;
    cbv beta iota delta [fst snd] in Hparts, Hflag; subst parts flag; clear Hp.
  all: upstream_cases_mm create.
Qed.

Lemma multimodal_discards_unparsable create json_loads texts message image s msg :
  json_loads s = inl (JSONDecodeError msg) ->
  run (multimodal_chat create json_loads texts message image (Some s))
  = run (multimodal_chat create json_loads texts message image None).
Proof.
  intros Hs.
  unfold run, multimodal_chat, try_except_JSONDecodeError, truthy_str.
  unfold try_except, bind, lift, raise, ret.
  destruct (s =? ""); [reflexivity|].
  rewrite Hs. reflexivity.
Qed.

(** A response of the upload handler carries the tag of the selection
    policy, whatever the upload was. *)
Lemma image_upload_tag create texts image prompt preset_action resp :
  fst (run (image_upload_chat create texts image prompt preset_action)) = inr resp ->
  ImageAnalysisResponse.analysis_type resp
  = snd (spec_select_instruction preset_action prompt).
Proof.
  destruct (content_type image) as [ct|] eqn:Hct.
  - destruct (startswith ct "image/") eqn:Hpre.
    + destruct (file_read image) as [e|data] eqn:Hread.
      * unfold run, image_upload_chat, encode_image_to_base64,
          content_type_startswith.
        unfold try_except, bind, lift, raise, ret.
        rewrite Hct, Hpre, Hread. cbn.
        destruct (is_Exception e) eqn:He; cbn; [|rewrite He]; discriminate.
      * assert (Hacc : accepted_upload image data)
          by (split; [exists ct; split; assumption | assumption]).
        rewrite (image_upload_run create texts image data prompt preset_action Hacc).
        apply image_outcome_tag.
    + unfold run, image_upload_chat, content_type_startswith.
      unfold try_except, bind, lift, raise, ret.
      rewrite Hct, Hpre. cbn. discriminate.
  - unfold run, image_upload_chat, content_type_startswith.
    unfold try_except, bind, lift, raise, ret.
    rewrite Hct. cbn. discriminate.
Qed.

Lemma presets_keys (key instr : string) :
  In (key, instr) presets ->
  key <> "" /\ dict_mem presets key = true /\ dict_get presets key "" = instr.
Proof.
  unfold presets. cbn [In].
  intros H.
  repeat (destruct H as [H|H];
          [injection H as <- <-; repeat split; [discriminate]|]).
  contradiction.
Qed.

Lemma select_preset (key instr : string) (prompt : option string) :
  In (key, instr) presets ->
  spec_select_instruction (Some key) prompt = (instr, key).
Proof.
  intros H. apply presets_keys in H as (Hne & Hmem & Hget).
  unfold spec_select_instruction.
  rewrite (truthy_str_some key Hne), Hmem, Hget. reflexivity.
Qed.

Lemma select_unknown (key : string) (prompt : option string) :
  key <> "" -> dict_mem presets key = false ->
  spec_select_instruction (Some key) prompt = ("Analyze this image", key).
Proof.
  intros Hne Hmem. unfold spec_select_instruction.
  rewrite (truthy_str_some key Hne), Hmem. reflexivity.
Qed.

Lemma select_custom (p : string) :
  p <> "" -> spec_select_instruction None (Some p) = (p, "custom").
Proof.
  intros Hne. unfold spec_select_instruction.
  cbn [truthy_str]. fold (truthy_str (Some p)).
  rewrite (truthy_str_some p Hne). reflexivity.
Qed.

(** ** Properties of the endpoints *)

(** *** Upload validation *)

(** A refused upload in general: whatever the declared type, as long as it
    does not start with "image/", the 400 raised inside the [try] is caught by
    the handler's own [except Exception] and leaves as a 500; the upstream is
    not called. *)
Lemma image_upload_non_image create texts image ct prompt preset_action :
  content_type image = Some ct ->
  startswith ct "image/" = false ->
  run (image_upload_chat create texts image prompt preset_action)
  = (inl (HTTPException 500
            ("Error processing image: "
             ++ str_HTTPException texts 400 "File must be an image")), []).
Proof.
  intros Hct Hpre.
  unfold run, image_upload_chat, content_type_startswith.
  unfold try_except, bind, lift, raise, ret.
  rewrite Hct, Hpre. reflexivity.
Qed.

(** C1, as the code behaves: an upload declared "text/plain" makes no
    upstream call, but the answer is not the client error 400 the handler
    raises: the 400 is raised inside the handler's [try], caught by its
    [except Exception], and re-raised as a 500 that quotes it. *)
Theorem image_upload_text_plain_answers_500 :
  forall create texts data prompt preset_action,
    run (image_upload_chat create texts
           {| content_type := Some "text/plain"; file_read := inr data |}
           prompt preset_action)
    = (inl (HTTPException 500
              ("Error processing image: "
               ++ str_HTTPException texts 400 "File must be an image")), [])
    /\ http_status
         (fst (run (image_upload_chat create texts
                      {| content_type := Some "text/plain"; file_read := inr data |}
                      prompt preset_action))) = 500
    /\ http_status
         (fst (run (image_upload_chat create texts
                      {| content_type := Some "text/plain"; file_read := inr data |}
                      prompt preset_action))) <> 400.
Proof.
  intros create texts data prompt preset_action.
  rewrite (image_upload_non_image create texts
             {| content_type := Some "text/plain"; file_read := inr data |}
             "text/plain" prompt preset_action eq_refl eq_refl).
  cbn. repeat split. discriminate.
Qed.

(** *** Instruction selection *)

(** With neither a preset key nor a prompt, the upload handler and the
    base64 handler (given a model whose prompt is [None]) both send the
    default instruction and tag the answer "default". *)
Lemma image_default_selection create texts image data b64 :
  accepted_upload image data ->
  run (image_upload_chat create texts image None None)
  = image_outcome create texts "Analyze this image" "default" (b64encode data)
  /\ run (image_base64_chat create texts
            {| ImageAnalysisRequest.image_base64 := b64;
               ImageAnalysisRequest.prompt := None;
               ImageAnalysisRequest.preset_action := None |})
     = image_outcome create texts "Analyze this image" "default" b64.
Proof.
  intros Hacc. split.
  - now rewrite (image_upload_run create texts image data None None Hacc).
  - now rewrite image_base64_run.
Qed.

(** C2, as the code behaves: a body sent to /chat/image-base64 with neither
    [prompt] nor [preset_action] is validated into a model whose prompt is the
    class default "Analyze this image"; the text part is the default
    instruction, but the tag that comes back is "custom", not "default". *)
Theorem image_base64_omitted_prompt_is_custom :
  forall create texts b64,
    run (post_image_base64 create texts
           {| ImageAnalysisRequest.body_image_base64 := b64;
              ImageAnalysisRequest.body_prompt := ImageAnalysisRequest.Omitted;
              ImageAnalysisRequest.body_preset_action := ImageAnalysisRequest.Omitted |})
    = image_outcome create texts "Analyze this image" "custom" b64
    /\ run (post_image_base64 (stub_create "A cat.") texts
              {| ImageAnalysisRequest.body_image_base64 := b64;
                 ImageAnalysisRequest.body_prompt := ImageAnalysisRequest.Omitted;
                 ImageAnalysisRequest.body_preset_action := ImageAnalysisRequest.Omitted |})
       = (inr {| ImageAnalysisResponse.response := "A cat.";
                 ImageAnalysisResponse.analysis_type := "custom" |},
          [gpt4o_call (image_turns "Analyze this image" b64)]).
Proof.
  intros create texts b64.
  unfold post_image_base64, ImageAnalysisRequest.validate.
  cbn [ImageAnalysisRequest.body_image_base64 ImageAnalysisRequest.body_prompt
       ImageAnalysisRequest.body_preset_action].
  rewrite !image_base64_run. split; reflexivity.
Qed.

(** *** The multimodal flag *)

(** C3, as the code behaves: a file declared "text/plain" is left out of the
    outgoing user turn (its only part is the text), yet the flag that comes
    back is true: it is computed as [image is not None]. *)
Theorem multimodal_flag_set_without_image_part :
  forall create json_loads texts message data,
    run (multimodal_chat create json_loads texts message
           (Some {| content_type := Some "text/plain"; file_read := inr data |})
           None)
    = multimodal_outcome create texts [] [text_part message] true
    /\ run (multimodal_chat (stub_create "ok") json_loads texts message
              (Some {| content_type := Some "text/plain"; file_read := inr data |})
              None)
       = (inr {| MultimodalResponse.response := Some "ok";
                 MultimodalResponse.conversation_history :=
                   JArr [user_turn [text_part message];
                         JObj [("role", JStr "assistant"); ("content", JStr "ok")]];
                 MultimodalResponse.has_image := true |},
          [gpt4o_call (JArr [user_turn [text_part message]])]).
Proof.
  intros create json_loads texts message data.
  rewrite !(multimodal_run _ json_loads texts message
              (Some {| content_type := Some "text/plain"; file_read := inr data |})
              None [] [text_part message] true eq_refl eq_refl).
  split; reflexivity.
Qed.

(** C4: for a key of the preset table, on both image endpoints and whatever
    the prompt, the single upstream call carries the table's instruction for
    that key as its text part, every answer is tagged with the key, and an
    upstream reply comes back with that tag.  Moreover, for any preset key
    and prompt, both handlers follow the selection policy of the
    specification (preset, then prompt, then default): one instruction and
    one tag per request. *)
Theorem preset_key_selects_table_instruction :
  forall create texts key instr image data prompt b64,
    In (key, instr) presets ->
    accepted_upload image data ->
    (snd (run (image_upload_chat create texts image prompt (Some key)))
       = [gpt4o_call
         (JArr [JObj [("role", JStr "user");
                      ("content",
                       JArr [JObj [("type", JStr "text"); ("text", JStr instr)];
                             JObj [("type", JStr "image_url");
                                   ("image_url",
                                    JObj [("url",
                                           JStr ("data:image/jpeg;base64,"
                                                 ++ (b64encode data)))])]])]])]
     /\ (forall resp,
           fst (run (image_upload_chat create texts image prompt (Some key)))
             = inr resp ->
           ImageAnalysisResponse.analysis_type resp = key)
     /\ (forall reply,
           upstream_reply create (gpt4o_call
             (JArr [JObj [("role", JStr "user");
                          ("content",
                           JArr [JObj [("type", JStr "text"); ("text", JStr instr)];
                                 JObj [("type", JStr "image_url");
                                       ("image_url",
                                        JObj [("url",
                                               JStr ("data:image/jpeg;base64,"
                                                     ++ (b64encode data)))])]])]]))
             = Some reply ->
           fst (run (image_upload_chat create texts image prompt (Some key)))
             = inr {| ImageAnalysisResponse.response := reply;
                      ImageAnalysisResponse.analysis_type := key |}))
    /\ (snd (run (image_base64_chat create texts
                    {| ImageAnalysisRequest.image_base64 := b64;
                       ImageAnalysisRequest.prompt := prompt;
                       ImageAnalysisRequest.preset_action := Some key |}))
          = [gpt4o_call
            (JArr [JObj [("role", JStr "user");
                         ("content",
                          JArr [JObj [("type", JStr "text"); ("text", JStr instr)];
                                JObj [("type", JStr "image_url");
                                      ("image_url",
                                       JObj [("url",
                                              JStr ("data:image/jpeg;base64,"
                                                    ++ b64))])]])]])]
        /\ (forall resp,
              fst (run (image_base64_chat create texts
                          {| ImageAnalysisRequest.image_base64 := b64;
                             ImageAnalysisRequest.prompt := prompt;
                             ImageAnalysisRequest.preset_action := Some key |}))
                = inr resp ->
              ImageAnalysisResponse.analysis_type resp = key)
        /\ (forall reply,
              upstream_reply create (gpt4o_call
                (JArr [JObj [("role", JStr "user");
                             ("content",
                              JArr [JObj [("type", JStr "text"); ("text", JStr instr)];
                                    JObj [("type", JStr "image_url");
                                          ("image_url",
                                           JObj [("url",
                                                  JStr ("data:image/jpeg;base64,"
                                                        ++ b64))])]])]]))
                = Some reply ->
              fst (run (image_base64_chat create texts
                          {| ImageAnalysisRequest.image_base64 := b64;
                             ImageAnalysisRequest.prompt := prompt;
                             ImageAnalysisRequest.preset_action := Some key |}))
                = inr {| ImageAnalysisResponse.response := reply;
                         ImageAnalysisResponse.analysis_type := key |}))
    /\ (forall preset_action prompt',
          run (image_upload_chat create texts image prompt' preset_action)
            = image_outcome create texts
                (fst (spec_select_instruction preset_action prompt'))
                (snd (spec_select_instruction preset_action prompt'))
                (b64encode data)
          /\ run (image_base64_chat create texts
                    {| ImageAnalysisRequest.image_base64 := b64;
                       ImageAnalysisRequest.prompt := prompt';
                       ImageAnalysisRequest.preset_action := preset_action |})
             = image_outcome create texts
                 (fst (spec_select_instruction preset_action prompt'))
                 (snd (spec_select_instruction preset_action prompt'))
                 b64).
Proof.
  intros create texts key instr image data prompt b64 Hin Hacc.
  rewrite (image_upload_run create texts image data prompt (Some key) Hacc).
  rewrite image_base64_run.
  rewrite (select_preset key instr prompt Hin). cbn [fst snd].
  repeat split.
  - apply image_outcome_tag.
  - apply image_outcome_reply.
  - apply image_outcome_tag.
  - apply image_outcome_reply.
  - apply (image_upload_run create texts image data _ _ Hacc).
  - apply image_base64_run.
Qed.

Lemma preset_key_selects_table_instruction_witness :
  In ("summarize",
      "Provide a concise summary of what's shown in this image in 2-3 sentences.")
     presets
  /\ accepted_upload
       {| content_type := Some "image/png"; file_read := inr [x4d; x61; x6e]%byte |}
       [x4d; x61; x6e]%byte
  /\ run (image_upload_chat (stub_create "Two cats.") stub_texts
            {| content_type := Some "image/png";
               file_read := inr [x4d; x61; x6e]%byte |}
            (Some "what is this?") (Some "summarize"))
     = (inr {| ImageAnalysisResponse.response := "Two cats.";
               ImageAnalysisResponse.analysis_type := "summarize" |},
        [gpt4o_call
           (JArr [JObj [("role", JStr "user");
                        ("content",
                         JArr [JObj [("type", JStr "text");
                                     ("text",
                                      JStr "Provide a concise summary of what's shown in this image in 2-3 sentences.")];
                               JObj [("type", JStr "image_url");
                                     ("image_url",
                                      JObj [("url",
                                             JStr "data:image/jpeg;base64,TWFu")])]])]])]).
Proof.
  assert (Hin : In ("summarize",
      "Provide a concise summary of what's shown in this image in 2-3 sentences.")
     presets) by (simpl; tauto).
  assert (Hacc : accepted_upload
       {| content_type := Some "image/png"; file_read := inr [x4d; x61; x6e]%byte |}
       [x4d; x61; x6e]%byte)
    by (split; [exists "image/png"; split; reflexivity | reflexivity]).
  split; [exact Hin | split; [exact Hacc |]].
  destruct (preset_key_selects_table_instruction
              (stub_create "Two cats.") stub_texts
              "summarize"
              "Provide a concise summary of what's shown in this image in 2-3 sentences."
              {| content_type := Some "image/png";
                 file_read := inr [x4d; x61; x6e]%byte |}
              [x4d; x61; x6e]%byte (Some "what is this?") "TWFu" Hin Hacc)
    as ((Hlog & _ & Hreply) & _).
  apply injective_projections; cbn [fst snd].
  - apply Hreply. reflexivity.
  - exact Hlog.
Defined.

(** C5: for a non-empty key that is not in the preset table, on both image
    endpoints, the text part of the upstream call is the default instruction
    "Analyze this image", every answer is tagged with the literal key, and the
    key alone never fails the request: an upstream reply comes back as a
    response (status 200) with that tag. *)
Theorem unknown_preset_key_passes_through :
  forall create texts key image data prompt b64,
    key <> "" ->
    dict_mem presets key = false ->
    accepted_upload image data ->
    (snd (run (image_upload_chat create texts image prompt (Some key)))
       = [gpt4o_call
         (JArr [JObj [("role", JStr "user");
                      ("content",
                       JArr [JObj [("type", JStr "text"); ("text", JStr "Analyze this image")];
                             JObj [("type", JStr "image_url");
                                   ("image_url",
                                    JObj [("url",
                                           JStr ("data:image/jpeg;base64,"
                                                 ++ (b64encode data)))])]])]])]
     /\ (forall resp,
           fst (run (image_upload_chat create texts image prompt (Some key)))
             = inr resp ->
           ImageAnalysisResponse.analysis_type resp = key)
     /\ (forall reply,
           upstream_reply create
             (gpt4o_call
               (JArr [JObj [("role", JStr "user");
                            ("content",
                             JArr [JObj [("type", JStr "text"); ("text", JStr "Analyze this image")];
                                   JObj [("type", JStr "image_url");
                                         ("image_url",
                                          JObj [("url",
                                                 JStr ("data:image/jpeg;base64,"
                                                       ++ (b64encode data)))])]])]]))
             = Some reply ->
           fst (run (image_upload_chat create texts image prompt (Some key)))
             = inr {| ImageAnalysisResponse.response := reply;
                      ImageAnalysisResponse.analysis_type := key |}
           /\ http_status
                (fst (run (image_upload_chat create texts image prompt (Some key))))
              = 200))
    /\ (snd (run (image_base64_chat create texts
                    {| ImageAnalysisRequest.image_base64 := b64;
                       ImageAnalysisRequest.prompt := prompt;
                       ImageAnalysisRequest.preset_action := Some key |}))
          = [gpt4o_call
            (JArr [JObj [("role", JStr "user");
                         ("content",
                          JArr [JObj [("type", JStr "text"); ("text", JStr "Analyze this image")];
                                JObj [("type", JStr "image_url");
                                      ("image_url",
                                       JObj [("url",
                                              JStr ("data:image/jpeg;base64,"
                                                    ++ b64))])]])]])]
        /\ (forall resp,
              fst (run (image_base64_chat create texts
                          {| ImageAnalysisRequest.image_base64 := b64;
                             ImageAnalysisRequest.prompt := prompt;
                             ImageAnalysisRequest.preset_action := Some key |}))
                = inr resp ->
              ImageAnalysisResponse.analysis_type resp = key)
        /\ (forall reply,
              upstream_reply create
                (gpt4o_call
                  (JArr [JObj [("role", JStr "user");
                               ("content",
                                JArr [JObj [("type", JStr "text"); ("text", JStr "Analyze this image")];
                                      JObj [("type", JStr "image_url");
                                            ("image_url",
                                             JObj [("url",
                                                    JStr ("data:image/jpeg;base64,"
                                                          ++ b64))])]])]]))
                = Some reply ->
              fst (run (image_base64_chat create texts
                          {| ImageAnalysisRequest.image_base64 := b64;
                             ImageAnalysisRequest.prompt := prompt;
                             ImageAnalysisRequest.preset_action := Some key |}))
                = inr {| ImageAnalysisResponse.response := reply;
                         ImageAnalysisResponse.analysis_type := key |}
              /\ http_status
                   (fst (run (image_base64_chat create texts
                                {| ImageAnalysisRequest.image_base64 := b64;
                                   ImageAnalysisRequest.prompt := prompt;
                                   ImageAnalysisRequest.preset_action := Some key |})))
                 = 200)).
Proof.
  intros create texts key image data prompt b64 Hne Hmem Hacc.
  rewrite (image_upload_run create texts image data prompt (Some key) Hacc).
  rewrite image_base64_run.
  rewrite (select_unknown key prompt Hne Hmem). cbn [fst snd].
  repeat split.
  - apply image_outcome_tag.
  - now apply image_outcome_reply.
  - rewrite (image_outcome_reply create texts _ key _ reply); [reflexivity|assumption].
  - apply image_outcome_tag.
  - now apply image_outcome_reply.
  - rewrite (image_outcome_reply create texts _ key _ reply); [reflexivity|assumption].
Qed.

Lemma unknown_preset_key_passes_through_witness :
  "ocr" <> ""
  /\ dict_mem presets "ocr" = false
  /\ accepted_upload
       {| content_type := Some "image/png"; file_read := inr [x4d; x61]%byte |}
       [x4d; x61]%byte
  /\ run (image_upload_chat (stub_create "Nothing to read.") stub_texts
            {| content_type := Some "image/png"; file_read := inr [x4d; x61]%byte |}
            None (Some "ocr"))
     = (inr {| ImageAnalysisResponse.response := "Nothing to read.";
               ImageAnalysisResponse.analysis_type := "ocr" |},
        [gpt4o_call
          (JArr [JObj [("role", JStr "user");
                       ("content",
                        JArr [JObj [("type", JStr "text"); ("text", JStr "Analyze this image")];
                              JObj [("type", JStr "image_url");
                                    ("image_url",
                                     JObj [("url",
                                            JStr ("data:image/jpeg;base64,"
                                                  ++ "TWE="))])]])]])]).
Proof.
  assert (Hne : "ocr" <> "") by discriminate.
  assert (Hmem : dict_mem presets "ocr" = false) by reflexivity.
  assert (Hacc : accepted_upload
       {| content_type := Some "image/png"; file_read := inr [x4d; x61]%byte |}
       [x4d; x61]%byte)
    by (split; [exists "image/png"; split; reflexivity | reflexivity]).
  split; [exact Hne | split; [exact Hmem | split; [exact Hacc |]]].
  destruct (unknown_preset_key_passes_through
              (stub_create "Nothing to read.") stub_texts "ocr"
              {| content_type := Some "image/png"; file_read := inr [x4d; x61]%byte |}
              [x4d; x61]%byte None "TWE=" Hne Hmem Hacc)
    as ((Hlog & _ & Hreply) & _).
  apply injective_projections; cbn [fst snd].
  - apply Hreply. reflexivity.
  - exact Hlog.
Defined.

(** C6: with no preset key and a non-empty prompt, on both image endpoints,
    the text part of the upstream call is the prompt verbatim and every
    answer is tagged "custom". *)
Theorem custom_prompt_is_sent_verbatim :
  forall create texts p image data b64,
    p <> "" ->
    accepted_upload image data ->
    (snd (run (image_upload_chat create texts image (Some p) None))
       = [gpt4o_call
         (JArr [JObj [("role", JStr "user");
                      ("content",
                       JArr [JObj [("type", JStr "text"); ("text", JStr p)];
                             JObj [("type", JStr "image_url");
                                   ("image_url",
                                    JObj [("url",
                                           JStr ("data:image/jpeg;base64,"
                                                 ++ (b64encode data)))])]])]])]
     /\ (forall resp,
           fst (run (image_upload_chat create texts image (Some p) None))
             = inr resp ->
           ImageAnalysisResponse.analysis_type resp = "custom")
     /\ (forall reply,
           upstream_reply create (gpt4o_call
             (JArr [JObj [("role", JStr "user");
                          ("content",
                           JArr [JObj [("type", JStr "text"); ("text", JStr p)];
                                 JObj [("type", JStr "image_url");
                                       ("image_url",
                                        JObj [("url",
                                               JStr ("data:image/jpeg;base64,"
                                                     ++ (b64encode data)))])]])]]))
             = Some reply ->
           fst (run (image_upload_chat create texts image (Some p) None))
             = inr {| ImageAnalysisResponse.response := reply;
                      ImageAnalysisResponse.analysis_type := "custom" |}))
    /\ (snd (run (image_base64_chat create texts
                    {| ImageAnalysisRequest.image_base64 := b64;
                       ImageAnalysisRequest.prompt := Some p;
                       ImageAnalysisRequest.preset_action := None |}))
          = [gpt4o_call
            (JArr [JObj [("role", JStr "user");
                         ("content",
                          JArr [JObj [("type", JStr "text"); ("text", JStr p)];
                                JObj [("type", JStr "image_url");
                                      ("image_url",
                                       JObj [("url",
                                              JStr ("data:image/jpeg;base64,"
                                                    ++ b64))])]])]])]
        /\ (forall resp,
              fst (run (image_base64_chat create texts
                          {| ImageAnalysisRequest.image_base64 := b64;
                             ImageAnalysisRequest.prompt := Some p;
                             ImageAnalysisRequest.preset_action := None |}))
                = inr resp ->
              ImageAnalysisResponse.analysis_type resp = "custom")
        /\ (forall reply,
              upstream_reply create (gpt4o_call
                (JArr [JObj [("role", JStr "user");
                             ("content",
                              JArr [JObj [("type", JStr "text"); ("text", JStr p)];
                                    JObj [("type", JStr "image_url");
                                          ("image_url",
                                           JObj [("url",
                                                  JStr ("data:image/jpeg;base64,"
                                                        ++ b64))])]])]])) = Some reply ->
              fst (run (image_base64_chat create texts
                          {| ImageAnalysisRequest.image_base64 := b64;
                             ImageAnalysisRequest.prompt := Some p;
                             ImageAnalysisRequest.preset_action := None |}))
                = inr {| ImageAnalysisResponse.response := reply;
                         ImageAnalysisResponse.analysis_type := "custom" |})).
Proof.
  intros create texts p image data b64 Hne Hacc.
  rewrite (image_upload_run create texts image data (Some p) None Hacc).
  rewrite image_base64_run.
  rewrite (select_custom p Hne). cbn [fst snd].
  repeat split.
  - apply image_outcome_tag.
  - apply image_outcome_reply.
  - apply image_outcome_tag.
  - apply image_outcome_reply.
Qed.

Lemma custom_prompt_is_sent_verbatim_witness :
  "What do you see in this image?" <> ""
  /\ accepted_upload
       {| content_type := Some "image/jpeg"; file_read := inr [x4d]%byte |}
       [x4d]%byte
  /\ run (image_base64_chat (stub_create "A pixel.") stub_texts
            {| ImageAnalysisRequest.image_base64 := "iVBORw0KGgo=";
               ImageAnalysisRequest.prompt := Some "What do you see in this image?";
               ImageAnalysisRequest.preset_action := None |})
     = (inr {| ImageAnalysisResponse.response := "A pixel.";
               ImageAnalysisResponse.analysis_type := "custom" |},
        [gpt4o_call
          (JArr [JObj [("role", JStr "user");
                       ("content",
                        JArr [JObj [("type", JStr "text"); ("text", JStr "What do you see in this image?")];
                              JObj [("type", JStr "image_url");
                                    ("image_url",
                                     JObj [("url",
                                            JStr ("data:image/jpeg;base64,"
                                                  ++ "iVBORw0KGgo="))])]])]])]).
Proof.
  assert (Hne : "What do you see in this image?" <> "") by discriminate.
  assert (Hacc : accepted_upload
       {| content_type := Some "image/jpeg"; file_read := inr [x4d]%byte |}
       [x4d]%byte)
    by (split; [exists "image/jpeg"; split; reflexivity | reflexivity]).
  split; [exact Hne | split; [exact Hacc |]].
  destruct (custom_prompt_is_sent_verbatim
              (stub_create "A pixel.") stub_texts
              "What do you see in this image?"
              {| content_type := Some "image/jpeg"; file_read := inr [x4d]%byte |}
              [x4d]%byte "iVBORw0KGgo=" Hne Hacc)
    as (_ & (Hlog & _ & Hreply)).
  apply injective_projections; cbn [fst snd].
  - apply Hreply. reflexivity.
  - exact Hlog.
Defined.

(** *** Conversation bookkeeping of [/chat/text] *)

(** C7: for a history H and a message m, when the upstream answers [reply]
    the handler returns H followed by the user turn for m and the assistant
    turn for the reply, having sent H followed by the user turn; conversely
    every successful answer has this shape (its first |H| turns are H, then
    the user turn, then the assistant turn, |H| + 2 turns in all).  With the
    empty history, the message "hi" and the upstream reply "hello" the
    history returned is [user "hi"; assistant "hello"]. *)
Theorem text_chat_appends_user_and_assistant_turns :
  forall create texts h m,
    (forall reply,
       upstream_reply create
         (gpt4o_call (JArr (map JObj (prior_turns h ++ [user_text_turn m]))))
         = Some reply ->
       run (text_chat create texts
              {| TextChatRequest.message := m;
                 TextChatRequest.conversation_history := h |})
       = (inr {| TextChatResponse.response := reply;
                 TextChatResponse.conversation_history :=
                   prior_turns h ++ [user_text_turn m; assistant_turn reply] |},
          [gpt4o_call (JArr (map JObj (prior_turns h ++ [user_text_turn m])))]))
    /\ (forall resp,
          fst (run (text_chat create texts
                      {| TextChatRequest.message := m;
                         TextChatRequest.conversation_history := h |}))
            = inr resp ->
          upstream_reply create
            (gpt4o_call (JArr (map JObj (prior_turns h ++ [user_text_turn m]))))
            = Some (TextChatResponse.response resp)
          /\ TextChatResponse.conversation_history resp
             = prior_turns h
                 ++ [user_text_turn m;
                     assistant_turn (TextChatResponse.response resp)]
          /\ firstn (length (prior_turns h))
               (TextChatResponse.conversation_history resp) = prior_turns h
          /\ nth_error (TextChatResponse.conversation_history resp)
               (length (prior_turns h)) = Some (user_text_turn m)
          /\ nth_error (TextChatResponse.conversation_history resp)
               (S (length (prior_turns h)))
             = Some (assistant_turn (TextChatResponse.response resp))
          /\ length (TextChatResponse.conversation_history resp)
             = length (prior_turns h) + 2)
    /\ run (text_chat (stub_create "hello") texts
              {| TextChatRequest.message := "hi";
                 TextChatRequest.conversation_history := Some [] |})
       = (inr {| TextChatResponse.response := "hello";
                 TextChatResponse.conversation_history :=
                   [user_text_turn "hi"; assistant_turn "hello"] |},
          [gpt4o_call (JArr [JObj (user_text_turn "hi")])]).
Proof.
  intros create texts h m.
  rewrite text_chat_run. cbv zeta.
  split; [|split].
  - intros reply Hr.
    apply upstream_reply_some in Hr as (c & rest & Hc & Hcontent).
    rewrite Hc. cbn [first_content choices]. rewrite Hcontent.
    rewrite <- app_assoc. reflexivity.
  - intros resp. cbn [fst]. unfold upstream_reply.
    destruct (create _) as [e|response];
    [destruct (is_Exception e); discriminate|].
    unfold first_content.
    destruct (choices response) as [|c rest]; [discriminate|].
    destruct (message_content c) as [reply|]; [|discriminate].
    intros H; injection H as <-.
    cbn [TextChatResponse.response TextChatResponse.conversation_history].
    rewrite <- app_assoc. cbn [app].
    repeat split.
    + rewrite firstn_app, firstn_all, Nat.sub_diag. cbn. apply app_nil_r.
    + rewrite nth_error_app2 by lia. now rewrite Nat.sub_diag.
    + rewrite nth_error_app2 by lia.
      replace (S (length (prior_turns h)) - length (prior_turns h)) with 1 by lia.
      reflexivity.
    + rewrite length_app. reflexivity.
  - rewrite text_chat_run. reflexivity.
Qed.

Lemma text_chat_appends_user_and_assistant_turns_witness :
  upstream_reply (stub_create "hello")
    (gpt4o_call
       (JArr (map JObj
                (prior_turns (Some [user_text_turn "a"; assistant_turn "b"])
                 ++ [user_text_turn "hi"]))))
  = Some "hello"
  /\ run (text_chat (stub_create "hello") stub_texts
            {| TextChatRequest.message := "hi";
               TextChatRequest.conversation_history :=
                 Some [user_text_turn "a"; assistant_turn "b"] |})
     = (inr {| TextChatResponse.response := "hello";
               TextChatResponse.conversation_history :=
                 [user_text_turn "a"; assistant_turn "b";
                  user_text_turn "hi"; assistant_turn "hello"] |},
        [gpt4o_call
           (JArr [JObj (user_text_turn "a"); JObj (assistant_turn "b");
                  JObj (user_text_turn "hi")])]).
Proof.
  split; [reflexivity|].
  exact (proj1 (text_chat_appends_user_and_assistant_turns
                  (stub_create "hello") stub_texts
                  (Some [user_text_turn "a"; assistant_turn "b"]) "hi")
           "hello" eq_refl).
Defined.

(** *** Unparsable history on [/chat/multimodal] *)

Lemma multimodal_no_history_log create json_loads texts message image call :
  In call (snd (run (multimodal_chat create json_loads texts message image None))) ->
  exists parts, messages call = JArr [user_turn parts].
Proof.
  destruct (multimodal_parts message image) as [[parts flag]|] eqn:Hparts.
  - rewrite (multimodal_run create json_loads texts message image None
               [] parts flag eq_refl Hparts).
    cbn. intros [<-|[]]. now exists parts.
  - revert Hparts. unfold multimodal_parts.
    destruct image as [img|]; [|discriminate].
    unfold run, multimodal_chat, encode_image_to_base64, content_type_startswith.
    unfold try_except, bind, lift, raise, ret. cbn [truthy_str].
    destruct (content_type img) as [ct|]; [|intros _ []].
    destruct (startswith ct "image/"); [|discriminate].
    destruct (file_read img) as [e|data]; [intros _ | discriminate].
    cbn. destruct (is_Exception e) eqn:He; cbn; [|rewrite He]; intros [].
Qed.

(** A string that fails to parse without the decode error: on 2000 opening
    brackets the parser raises [RecursionError], and the request is answered
    with 500; no message list is sent upstream. *)
Lemma multimodal_unparsable_history_can_fail :
  deep_json_loads deep_brackets
  = inl (OtherException "RecursionError"
           "maximum recursion depth exceeded while decoding a JSON array from a unicode string")
  /\ run (multimodal_chat (stub_create "hello") deep_json_loads stub_texts
            "hi" None (Some deep_brackets))
     = (inl (HTTPException 500
               "Error processing multimodal chat: maximum recursion depth exceeded while decoding a JSON array from a unicode string"),
        [])
  /\ http_status
       (fst (run (multimodal_chat (stub_create "hello") deep_json_loads stub_texts
                    "hi" None (Some deep_brackets)))) = 500.
Proof. vm_compute. repeat split. Qed.

(** C8, amended: when parsing the history string of a multimodal request
    raises the parser's decode error ([json.JSONDecodeError], the only error
    the handler tolerates), the request behaves exactly as the same request
    without history: every upstream call it makes carries exactly one turn,
    the new user turn; without an image, the outcome is the one of the empty
    history, and an upstream reply comes back as a response (status 200)
    whose conversation is that user turn followed by the assistant turn. *)
Theorem multimodal_unparsable_history_is_discarded :
  forall create json_loads texts message image s msg,
    json_loads s = inl (JSONDecodeError msg) ->
    run (multimodal_chat create json_loads texts message image (Some s))
      = run (multimodal_chat create json_loads texts message image None)
    /\ (forall call,
          In call (snd (run (multimodal_chat create json_loads texts
                               message image (Some s)))) ->
          exists parts, messages call = JArr [user_turn parts])
    /\ run (multimodal_chat create json_loads texts message None (Some s))
       = multimodal_outcome create texts [] [JObj [("type", JStr "text"); ("text", JStr message)]] false
    /\ (forall reply,
          upstream_reply create (gpt4o_call (JArr [user_turn [JObj [("type", JStr "text"); ("text", JStr message)]]]))
            = Some reply ->
          run (multimodal_chat create json_loads texts message None (Some s))
          = (inr {| MultimodalResponse.response := Some reply;
                    MultimodalResponse.conversation_history :=
                      JArr [user_turn [JObj [("type", JStr "text"); ("text", JStr message)]];
                            JObj [("role", JStr "assistant");
                                  ("content", JStr reply)]];
                    MultimodalResponse.has_image := false |},
             [gpt4o_call (JArr [user_turn [JObj [("type", JStr "text"); ("text", JStr message)]]])])
          /\ http_status
               (fst (run (multimodal_chat create json_loads texts
                            message None (Some s)))) = 200).
Proof.
  intros create json_loads texts message image s msg Hs.
  rewrite !(multimodal_discards_unparsable create json_loads texts
              message _ s msg Hs).
  split; [reflexivity|].
  split; [intros call; apply multimodal_no_history_log|].
  rewrite (multimodal_run create json_loads texts message None None
             [] [JObj [("type", JStr "text"); ("text", JStr message)]] false
             eq_refl eq_refl).
  split; [reflexivity|].
  intros reply Hr.
  apply upstream_reply_some in Hr as (c & rest & Hc & Hcontent).
  unfold multimodal_outcome. cbn [app]. rewrite Hc.
  cbn [first_content choices]. rewrite Hcontent. cbn. split; reflexivity.
Qed.

Lemma multimodal_unparsable_history_is_discarded_witness :
  stub_json_loads "{not json" = inl (JSONDecodeError "Expecting value: line 1 column 1 (char 0)")
  /\ run (multimodal_chat (stub_create "hello") stub_json_loads stub_texts
            "hi" None (Some "{not json"))
     = (inr {| MultimodalResponse.response := Some "hello";
               MultimodalResponse.conversation_history :=
                 JArr [user_turn [JObj [("type", JStr "text"); ("text", JStr "hi")]];
                       JObj [("role", JStr "assistant"); ("content", JStr "hello")]];
               MultimodalResponse.has_image := false |},
        [gpt4o_call (JArr [user_turn [JObj [("type", JStr "text"); ("text", JStr "hi")]]])]).
Proof.
  split; [reflexivity|].
  apply (multimodal_unparsable_history_is_discarded
           (stub_create "hello") stub_json_loads stub_texts "hi" None
           "{not json" "Expecting value: line 1 column 1 (char 0)" eq_refl).
  reflexivity.
Defined.

(** *** The empty preset key *)

Lemma image_base64_tag create texts b64 prompt preset_action resp :
  fst (run (image_base64_chat create texts
              {| ImageAnalysisRequest.image_base64 := b64;
                 ImageAnalysisRequest.prompt := prompt;
                 ImageAnalysisRequest.preset_action := preset_action |})) = inr resp ->
  ImageAnalysisResponse.analysis_type resp
  = snd (spec_select_instruction preset_action prompt).
Proof. rewrite image_base64_run. apply image_outcome_tag. Qed.

Lemma select_empty_key (prompt : option string) :
  snd (spec_select_instruction (Some "") prompt)
  = if truthy prompt then "custom" else "default".
Proof.
  unfold spec_select_instruction. cbn [truthy_str String.eqb].
  rewrite truthy_truthy_str. now destruct (truthy_str prompt).
Qed.

(** C9: a preset key given as the empty string does not take the preset
    branch: on both image endpoints the request behaves exactly as the same
    request without a preset key, and every answer is tagged "custom" (when
    the prompt is a non-empty string) or "default" (otherwise), never with
    the empty string. *)
Theorem empty_preset_key_falls_through :
  forall create texts image prompt b64,
    run (image_upload_chat create texts image prompt (Some ""))
      = run (image_upload_chat create texts image prompt None)
    /\ run (image_base64_chat create texts
              {| ImageAnalysisRequest.image_base64 := b64;
                 ImageAnalysisRequest.prompt := prompt;
                 ImageAnalysisRequest.preset_action := Some "" |})
       = run (image_base64_chat create texts
                {| ImageAnalysisRequest.image_base64 := b64;
                   ImageAnalysisRequest.prompt := prompt;
                   ImageAnalysisRequest.preset_action := None |})
    /\ (forall resp,
          fst (run (image_upload_chat create texts image prompt (Some "")))
            = inr resp ->
          ImageAnalysisResponse.analysis_type resp
            = (if truthy prompt then "custom" else "default")
          /\ ImageAnalysisResponse.analysis_type resp <> "")
    /\ (forall resp,
          fst (run (image_base64_chat create texts
                      {| ImageAnalysisRequest.image_base64 := b64;
                         ImageAnalysisRequest.prompt := prompt;
                         ImageAnalysisRequest.preset_action := Some "" |}))
            = inr resp ->
          ImageAnalysisResponse.analysis_type resp
            = (if truthy prompt then "custom" else "default")
          /\ ImageAnalysisResponse.analysis_type resp <> "").
Proof.
  intros create texts image prompt b64.
  split; [reflexivity|]. split; [reflexivity|].
  split; intros resp Hresp.
  - apply image_upload_tag in Hresp. rewrite select_empty_key in Hresp.
    rewrite Hresp. split; [reflexivity|]. destruct (truthy prompt); discriminate.
  - apply image_base64_tag in Hresp. rewrite select_empty_key in Hresp.
    rewrite Hresp. split; [reflexivity|]. destruct (truthy prompt); discriminate.
Qed.

Lemma empty_preset_key_falls_through_witness :
  fst (run (image_upload_chat (stub_create "A cat.") stub_texts
              {| content_type := Some "image/png"; file_read := inr [x4d]%byte |}
              None (Some "")))
  = inr {| ImageAnalysisResponse.response := "A cat.";
           ImageAnalysisResponse.analysis_type := "default" |}
  /\ ImageAnalysisResponse.analysis_type
       {| ImageAnalysisResponse.response := "A cat.";
          ImageAnalysisResponse.analysis_type := "default" |} <> "".
Proof.
  split; [reflexivity|].
  exact (proj2 (proj1 (proj2 (proj2
           (empty_preset_key_falls_through
              (stub_create "A cat.") stub_texts
              {| content_type := Some "image/png"; file_read := inr [x4d]%byte |}
              None "TQ==")))
           {| ImageAnalysisResponse.response := "A cat.";
              ImageAnalysisResponse.analysis_type := "default" |} eq_refl)).
Defined.

(** *** The data URI *)

(** C10: on the three image-accepting endpoints, the image part of the
    outgoing user turn has the URL "data:image/jpeg;base64," followed by the
    base64 text (of the uploaded bytes, or as given in the body), whatever
    content type was declared; two accepted uploads that differ only in
    their declared content type are handled identically. *)
Theorem image_url_has_fixed_jpeg_prefix :
  forall create json_loads texts image data prompt preset_action
         request message history prior,
    accepted_upload image data ->
    starting_turns json_loads history = Some prior ->
    (exists text,
       snd (run (image_upload_chat create texts image prompt preset_action))
       = [gpt4o_call
            (JArr [JObj [("role", JStr "user");
                         ("content",
                          JArr [text_part text;
                                JObj [("type", JStr "image_url");
                                      ("image_url",
                                       JObj [("url",
                                              JStr ("data:image/jpeg;base64,"
                                                    ++ b64encode data))])]])]])])
    /\ (exists text,
          snd (run (image_base64_chat create texts request))
          = [gpt4o_call
               (JArr [JObj [("role", JStr "user");
                            ("content",
                             JArr [text_part text;
                                   JObj [("type", JStr "image_url");
                                         ("image_url",
                                          JObj [("url",
                                                 JStr ("data:image/jpeg;base64,"
                                                       ++ ImageAnalysisRequest.image_base64
                                                            request))])]])]])])
    /\ snd (run (multimodal_chat create json_loads texts message
                   (Some image) history))
       = [gpt4o_call
            (JArr (prior
                   ++ [JObj [("role", JStr "user");
                             ("content",
                              JArr [text_part message;
                                    JObj [("type", JStr "image_url");
                                          ("image_url",
                                           JObj [("url",
                                                  JStr ("data:image/jpeg;base64,"
                                                        ++ b64encode data))])]])]]))]
    /\ (forall ct1 ct2 contents,
          startswith ct1 "image/" = true ->
          startswith ct2 "image/" = true ->
          run (image_upload_chat create texts
                 {| content_type := Some ct1; file_read := contents |}
                 prompt preset_action)
          = run (image_upload_chat create texts
                   {| content_type := Some ct2; file_read := contents |}
                   prompt preset_action)
          /\ run (multimodal_chat create json_loads texts message
                    (Some {| content_type := Some ct1; file_read := contents |})
                    history)
             = run (multimodal_chat create json_loads texts message
                      (Some {| content_type := Some ct2; file_read := contents |})
                      history)).
Proof.
  intros create json_loads texts image data prompt preset_action
    request message history prior Hacc Hprior.
  split; [|split; [|split]].
  - exists (fst (spec_select_instruction preset_action prompt)).
    now rewrite (image_upload_run create texts image data prompt
                   preset_action Hacc).
  - destruct request as [b64 p a].
    exists (fst (spec_select_instruction a p)).
    now rewrite image_base64_run.
  - assert (Hparts : multimodal_parts message (Some image)
                     = Some ([text_part message; image_url_part (b64encode data)],
                             true)).
    { destruct Hacc as [(ct & Hct & Hpre) Hread].
      unfold multimodal_parts. now rewrite Hct, Hpre, Hread. }
    now rewrite (multimodal_run create json_loads texts message (Some image)
                   history prior _ true Hprior Hparts).
  - intros ct1 ct2 contents H1 H2. split.
    + unfold run, image_upload_chat, encode_image_to_base64,
        content_type_startswith.
      unfold try_except, bind, lift, raise, ret.
      cbn [content_type file_read]. now rewrite H1, H2.
    + unfold run, multimodal_chat, encode_image_to_base64,
        content_type_startswith.
      unfold try_except, bind, lift, raise, ret.
      cbn [content_type file_read]. now rewrite H1, H2.
Qed.

Lemma image_url_has_fixed_jpeg_prefix_witness :
  accepted_upload
    {| content_type := Some "image/png"; file_read := inr [x4d; x61; x6e]%byte |}
    [x4d; x61; x6e]%byte
  /\ starting_turns stub_json_loads (Some "[]") = Some []
  /\ snd (run (multimodal_chat (stub_create "ok") stub_json_loads stub_texts
                 "look"
                 (Some {| content_type := Some "image/png";
                          file_read := inr [x4d; x61; x6e]%byte |})
                 (Some "[]")))
     = [gpt4o_call
          (JArr [JObj [("role", JStr "user");
                       ("content",
                        JArr [text_part "look";
                              JObj [("type", JStr "image_url");
                                    ("image_url",
                                     JObj [("url",
                                            JStr "data:image/jpeg;base64,TWFu")])]])]])].
Proof.
  assert (Hacc : accepted_upload
    {| content_type := Some "image/png"; file_read := inr [x4d; x61; x6e]%byte |}
    [x4d; x61; x6e]%byte)
    by (split; [exists "image/png"; split; reflexivity | reflexivity]).
  assert (Hprior : starting_turns stub_json_loads (Some "[]") = Some [])
    by reflexivity.
  split; [exact Hacc | split; [exact Hprior |]].
  exact (proj1 (proj2 (proj2
           (image_url_has_fixed_jpeg_prefix
              (stub_create "ok") stub_json_loads stub_texts
              {| content_type := Some "image/png";
                 file_read := inr [x4d; x61; x6e]%byte |}
              [x4d; x61; x6e]%byte None None
              {| ImageAnalysisRequest.image_base64 := "TWFu";
                 ImageAnalysisRequest.prompt := None;
                 ImageAnalysisRequest.preset_action := None |}
              "look" (Some "[]") [] Hacc Hprior)))).
Defined.

(** *** The preset table *)

Lemma presets_six_entries : length presets = 6.
Proof. reflexivity. Qed.

Lemma presets_keys_distinct : NoDup (map fst presets).
Proof.
  unfold presets; cbn [map fst].
  repeat (constructor; [cbn [In]; intros H;
                        repeat (destruct H as [H|H]; [discriminate H|]);
                        exact H|]).
  constructor.
Qed.

(** ** Further properties of the code *)

(** *** The preset table and the informational endpoints *)

Lemma dict_mem_In (d : list (string * string)) (k default : string) :
  dict_mem d k = true -> In (k, dict_get d k default) d.
Proof.
  induction d as [|[k' v] rest IH]; cbn; [discriminate|].
  destruct (String.eqb_spec k' k) as [->|Hne]; cbn.
  - intros _. now left.
  - intros H. right. now apply IH.
Qed.

Lemma presets_instructions (key instr : string) :
  In (key, instr) presets -> instr <> "" /\ instr <> "Analyze this image".
Proof.
  unfold presets. cbn [In]. intros H.
  repeat (destruct H as [H|H]; [injection H as <- <-; split; discriminate|]).
  contradiction.
Qed.

(** X1: [get_preset_prompt] falls back to the default instruction exactly
    for the keys that are not in the table (no table entry is the default
    text), and it never returns the empty string. *)
Theorem get_preset_prompt_default_iff_unknown :
  forall action,
    (get_preset_prompt action = "Analyze this image"
     <-> dict_mem presets action = false)
    /\ get_preset_prompt action <> "".
Proof.
  intros action. rewrite get_preset_prompt_spec.
  destruct (dict_mem presets action) eqn:Hmem.
  - apply (dict_mem_In presets action "") in Hmem.
    apply presets_instructions in Hmem as [Hne Hdef].
    split; [split; [contradiction | discriminate] | exact Hne].
  - split; [split; reflexivity | discriminate].
Qed.

(** X2: [GET /presets] lists six entries whose keys are, in the same order,
    the keys of the table [get_preset_prompt] looks up: a key is listed
    exactly when the table has it, so no listed key falls back to the default
    instruction. *)
Theorem presets_listing_matches_table :
  listed_preset_keys = map (fun entry => Some (fst entry)) presets
  /\ length listed_preset_keys = 6
  /\ (forall key, In (Some key) listed_preset_keys <-> dict_mem presets key = true)
  /\ (forall key, In (Some key) listed_preset_keys ->
        get_preset_prompt key <> "Analyze this image").
Proof.
  assert (Hiff : forall key,
             In (Some key) listed_preset_keys <-> dict_mem presets key = true).
  { intros key. change listed_preset_keys
      with (map (fun entry : string * string => Some (fst entry)) presets).
    rewrite in_map_iff. split.
    - intros ([k v] & Hk & Hin). injection Hk as ->.
      now apply presets_keys in Hin.
    - intros Hmem. exists (key, dict_get presets key "").
      split; [reflexivity | now apply dict_mem_In]. }
  split; [reflexivity|]. split; [reflexivity|]. split; [exact Hiff|].
  intros key Hin Hdef. apply Hiff in Hin.
  rewrite get_preset_prompt_spec, Hin in Hdef.
  apply (dict_mem_In presets key "") in Hin.
  apply presets_instructions in Hin as [_ Hne]. contradiction.
Qed.

(** X3: every path the root endpoint advertises is a registered route, but
    the registered route /chat/multimodal is not advertised. *)
Theorem root_advertises_registered_routes_only :
  (forall path, In path advertised_paths -> exists method, In (method, path) routes)
  /\ In ("POST", "/chat/multimodal") routes
  /\ ~ In "/chat/multimodal" advertised_paths.
Proof.
  split; [|split].
  - intros path H. cbn in H.
    repeat (destruct H as [<-|H];
            [first [exists "POST"; cbn; tauto | exists "GET"; cbn; tauto]|]).
    contradiction.
  - cbn; tauto.
  - cbn. intros H.
    repeat (destruct H as [H|H]; [discriminate H|]). exact H.
Qed.

(** *** Case analysis on a handler *)

(** Case analysis on every test a handler makes, innermost first. *)
Ltac has_no_test t :=
  match t with
  | context [match _ with _ => _ end] => fail 1
  | _ => idtac
  end.

Ltac break_match :=
  match goal with
  | |- context [match ?scrutinee with _ => _ end] =>
      has_no_test scrutinee; destruct scrutinee eqn:?
  end.

Ltac unfold_handler :=
  unfold run, text_chat, image_upload_chat, image_base64_chat, multimodal_chat,
    try_except_JSONDecodeError, encode_image_to_base64,
    content_type_startswith, chat_completions_create, first_content, append,
    truthy_str, py_or, truthy, TextChatResponse.make, ImageAnalysisResponse.make;
  unfold try_except, bind, lift, raise, ret.

(** One step of the analysis: decide the class test of a known exception,
    reuse a class test already decided, or split on the next test. *)
Ltac handler_step :=
  first
    [ progress cbn [is_Exception negb]
    | match goal with
      | H : is_Exception ?e = _ |- context [is_Exception ?e] => rewrite H
      end
    | break_match ].

Ltac handler_cases := unfold_handler; repeat handler_step.

(** *** Status codes *)

(** X4: a handler that fails raises either an [HTTPException] whose code is
    500, or an exception that is not an [Exception] and that one of its
    collaborators (the upstream client, the parser, the file read) raised on
    this request and the handler let through.  In particular no handler ever
    raises a 400, and nothing the handlers raise themselves escapes as
    anything but a 500. *)
Theorem handlers_fail_with_500_or_pass_through :
  forall create json_loads texts,
    (forall request e,
        fst (run (text_chat create texts request)) = inl e ->
        (exists d, e = HTTPException 500 d)
        \/ (is_Exception e = false /\ exists call, create call = inl e))
    /\ (forall image prompt preset_action e,
          fst (run (image_upload_chat create texts image prompt preset_action))
            = inl e ->
          (exists d, e = HTTPException 500 d)
          \/ (is_Exception e = false
              /\ (file_read image = inl e \/ exists call, create call = inl e)))
    /\ (forall request e,
          fst (run (image_base64_chat create texts request)) = inl e ->
          (exists d, e = HTTPException 500 d)
          \/ (is_Exception e = false /\ exists call, create call = inl e))
    /\ (forall message image history e,
          fst (run (multimodal_chat create json_loads texts message image history))
            = inl e ->
          (exists d, e = HTTPException 500 d)
          \/ (is_Exception e = false
              /\ ((exists s, history = Some s /\ json_loads s = inl e)
                  \/ (exists img, image = Some img /\ file_read img = inl e)
                  \/ exists call, create call = inl e))).
Proof.
  intros create json_loads texts.
  split; [|split; [|split]].
  - intros [m h] e. rewrite text_chat_run. cbv zeta. cbn [fst].
    destruct (create _) as [e'|response] eqn:Hc.
    + destruct (is_Exception e') eqn:He; intros H; injection H as <-.
      * left. now eexists.
      * right. split; [exact He | eexists; exact Hc].
    + destruct (first_content response) as [e'|[reply|]]; intros H;
        try discriminate H; injection H as <-; left; now eexists.
  - intros image prompt preset_action e. handler_cases.
    all: cbn [fst]; intros H; try discriminate H; injection H as <-.
    all: try (left; eexists; reflexivity).
    all: right; split; [assumption | eauto].
  - intros [b64 p a] e. rewrite image_base64_run. unfold image_outcome.
    cbv zeta. cbn [fst].
    destruct (create _) as [e'|response] eqn:Hc.
    + destruct (is_Exception e') eqn:He; intros H; injection H as <-.
      * left. now eexists.
      * right. split; [exact He | eexists; exact Hc].
    + destruct (first_content response) as [e'|[reply|]]; intros H;
        try discriminate H; injection H as <-; left; now eexists.
  - intros message image history e. handler_cases.
    all: cbn [fst]; intros H; try discriminate H; injection H as <-.
    all: try (left; eexists; reflexivity).
    all: try (right; split; [assumption | eauto 8]).
    all: exfalso; cbn [is_Exception] in *; congruence.
Qed.

(** *** Upstream calls *)

(** X5: a request makes at most one upstream call, and a handler never
    returns a response without having made exactly one: this holds for the
    four handlers, whatever the request and the upstream. *)
Theorem handlers_call_upstream_once :
  forall create json_loads texts,
    (forall request,
        length (snd (run (text_chat create texts request))) = 1)
    /\ (forall request,
          length (snd (run (image_base64_chat create texts request))) = 1)
    /\ (forall image prompt preset_action,
          length (snd (run (image_upload_chat create texts image prompt
                              preset_action))) <= 1
          /\ (forall resp,
                fst (run (image_upload_chat create texts image prompt
                            preset_action)) = inr resp ->
                length (snd (run (image_upload_chat create texts image prompt
                                    preset_action))) = 1))
    /\ (forall message image history,
          length (snd (run (multimodal_chat create json_loads texts message
                              image history))) <= 1
          /\ (forall resp,
                fst (run (multimodal_chat create json_loads texts message
                            image history)) = inr resp ->
                length (snd (run (multimodal_chat create json_loads texts
                                    message image history))) = 1)).
Proof.
  intros create json_loads texts.
  split; [|split; [|split]].
  - intros [m h]. now rewrite text_chat_run.
  - intros [b64 p a]. now rewrite image_base64_run.
  - intros image prompt preset_action.
    unfold_handler. repeat break_match.
    all: cbn [fst snd length app]; split; try lia;
      intros; try discriminate; reflexivity.
  - intros message image history.
    unfold_handler. repeat break_match.
    all: cbn [fst snd length app]; split; try lia;
      intros; try discriminate; reflexivity.
Qed.

(** *** [/chat/text]: failures and threading *)

(** X6: when the upstream gives no text (it raises an [Exception], answers
    with no choice, or the first choice has no content), [text_chat] answers
    500 with a detail that starts "Error processing chat: ", after exactly one
    upstream call on the history extended by the user turn. *)
Theorem text_chat_without_reply_is_500 :
  forall create texts h m,
    upstream_reply create
      (gpt4o_call (JArr (map JObj (prior_turns h ++ [user_text_turn m])))) = None ->
    (forall e,
        create (gpt4o_call (JArr (map JObj (prior_turns h ++ [user_text_turn m]))))
        = inl e ->
        is_Exception e = true) ->
    exists detail,
      run (text_chat create texts
             {| TextChatRequest.message := m;
                TextChatRequest.conversation_history := h |})
      = (inl (HTTPException 500 ("Error processing chat: " ++ detail)),
         [gpt4o_call (JArr (map JObj (prior_turns h ++ [user_text_turn m])))]).
Proof.
  intros create texts h m Hnone Hexc.
  rewrite text_chat_run. cbv zeta. revert Hnone Hexc.
  unfold upstream_reply, first_content.
  destruct (create _) as [e|[chs]]; cbn [choices].
  - intros _ Hexc. rewrite (Hexc e eq_refl). now eexists.
  - destruct chs as [|c rest].
    + intros _ _. now eexists.
    + intros -> _. now eexists.
Qed.

Lemma text_chat_without_reply_is_500_witness :
  upstream_reply (fun _ => inl (OtherException "APIConnectionError" "Connection error."))
    (gpt4o_call (JArr (map JObj (prior_turns None ++ [user_text_turn "hi"])))) = None
  /\ (forall e,
        (fun _ : CreateCall =>
           @inl exn ChatCompletion
             (OtherException "APIConnectionError" "Connection error."))
          (gpt4o_call (JArr (map JObj (prior_turns None ++ [user_text_turn "hi"]))))
        = inl e ->
        is_Exception e = true)
  /\ exists detail,
       run (text_chat
              (fun _ => inl (OtherException "APIConnectionError" "Connection error."))
              stub_texts
              {| TextChatRequest.message := "hi";
                 TextChatRequest.conversation_history := None |})
       = (inl (HTTPException 500 ("Error processing chat: " ++ detail)),
          [gpt4o_call (JArr (map JObj (prior_turns None ++ [user_text_turn "hi"])))]).
Proof.
  assert (Hexc : forall e,
             (fun _ : CreateCall =>
                @inl exn ChatCompletion
                  (OtherException "APIConnectionError" "Connection error."))
               (gpt4o_call (JArr (map JObj (prior_turns None ++ [user_text_turn "hi"]))))
             = inl e ->
             is_Exception e = true)
    by (intros e H; injection H as <-; reflexivity).
  split; [reflexivity|]. split; [exact Hexc|].
  exact (text_chat_without_reply_is_500
           (fun _ => inl (OtherException "APIConnectionError" "Connection error."))
           stub_texts None "hi" eq_refl Hexc).
Defined.

(** X7: the history returned by one [text_chat] request can be sent back with
    the next message: after two answered rounds from a history H the client
    holds H followed by user, assistant, user, assistant turns, and the second
    upstream call carried H and the first three of them. *)
Theorem text_chat_threads_conversation :
  forall create texts h m1 m2 r1 r2,
    upstream_reply create
      (gpt4o_call (JArr (map JObj (prior_turns h ++ [user_text_turn m1])))) = Some r1 ->
    upstream_reply create
      (gpt4o_call
         (JArr (map JObj (prior_turns h
                          ++ [user_text_turn m1; assistant_turn r1;
                              user_text_turn m2])))) = Some r2 ->
    exists resp1,
      fst (run (text_chat create texts
                  {| TextChatRequest.message := m1;
                     TextChatRequest.conversation_history := h |})) = inr resp1
      /\ run (text_chat create texts
                {| TextChatRequest.message := m2;
                   TextChatRequest.conversation_history :=
                     Some (TextChatResponse.conversation_history resp1) |})
         = (inr {| TextChatResponse.response := r2;
                   TextChatResponse.conversation_history :=
                     prior_turns h
                       ++ [user_text_turn m1; assistant_turn r1;
                           user_text_turn m2; assistant_turn r2] |},
            [gpt4o_call
               (JArr (map JObj (prior_turns h
                                ++ [user_text_turn m1; assistant_turn r1;
                                    user_text_turn m2])))]).
Proof.
  intros create texts h m1 m2 r1 r2 H1 H2.
  apply upstream_reply_some in H1 as (c1 & rest1 & Hc1 & Hr1).
  apply upstream_reply_some in H2 as (c2 & rest2 & Hc2 & Hr2).
  eexists. split.
  - rewrite text_chat_run. cbv zeta. rewrite Hc1.
    cbn [fst first_content choices]. rewrite Hr1. reflexivity.
  - rewrite text_chat_run. cbv zeta.
    cbn [prior_turns TextChatResponse.conversation_history].
    rewrite <- !app_assoc. cbn [app]. rewrite Hc2.
    cbn [first_content choices]. rewrite Hr2.
    rewrite <- !app_assoc. reflexivity.
Qed.

Lemma text_chat_threads_conversation_witness :
  exists resp1,
    fst (run (text_chat (stub_create "hello") stub_texts
                {| TextChatRequest.message := "hi";
                   TextChatRequest.conversation_history := Some [] |})) = inr resp1
    /\ run (text_chat (stub_create "hello") stub_texts
              {| TextChatRequest.message := "again";
                 TextChatRequest.conversation_history :=
                   Some (TextChatResponse.conversation_history resp1) |})
       = (inr {| TextChatResponse.response := "hello";
                 TextChatResponse.conversation_history :=
                   prior_turns (Some [])
                     ++ [user_text_turn "hi"; assistant_turn "hello";
                         user_text_turn "again"; assistant_turn "hello"] |},
          [gpt4o_call
             (JArr (map JObj (prior_turns (Some [])
                              ++ [user_text_turn "hi"; assistant_turn "hello";
                                  user_text_turn "again"])))]).
Proof.
  exact (text_chat_threads_conversation (stub_create "hello") stub_texts
           (Some []) "hi" "again" "hello" "hello" eq_refl eq_refl).
Defined.

(** *** The image handlers *)

Lemma select_nonempty (preset_action prompt : option string) :
  fst (spec_select_instruction preset_action prompt) <> ""
  /\ snd (spec_select_instruction preset_action prompt) <> ""
  /\ (snd (spec_select_instruction preset_action prompt) = "custom"
      \/ snd (spec_select_instruction preset_action prompt) = "default"
      \/ preset_action = Some (snd (spec_select_instruction preset_action prompt))).
Proof.
  unfold spec_select_instruction.
  destruct preset_action as [a|]; cbn [truthy_str].
  - destruct (String.eqb_spec a "") as [->|Ha].
    + destruct prompt as [p|]; cbn [truthy_str].
      * destruct (String.eqb_spec p "") as [->|Hp]; cbn [fst snd];
          repeat split; try discriminate; try assumption; tauto.
      * cbn [fst snd]. repeat split; try discriminate; tauto.
    + cbn [fst snd]. repeat split; try assumption; [|tauto].
      destruct (dict_mem presets a) eqn:Hmem; [|discriminate].
      apply (dict_mem_In presets a "") in Hmem.
      now apply presets_instructions in Hmem.
  - destruct prompt as [p|]; cbn [truthy_str].
    + destruct (String.eqb_spec p "") as [->|Hp]; cbn [fst snd];
        repeat split; try discriminate; try assumption; tauto.
    + cbn [fst snd]. repeat split; try discriminate; tauto.
Qed.

(** X8: posting an accepted upload is the same as posting the base64 text of
    its bytes: for the same prompt and preset key, [image_upload_chat] on a
    readable file declared as an image and [image_base64_chat] on
    [b64encode] of its bytes make the same upstream call and give the same
    answer. *)
Theorem upload_equals_base64_of_bytes :
  forall create texts image data prompt preset_action,
    accepted_upload image data ->
    run (image_upload_chat create texts image prompt preset_action)
    = run (image_base64_chat create texts
             {| ImageAnalysisRequest.image_base64 := b64encode data;
                ImageAnalysisRequest.prompt := prompt;
                ImageAnalysisRequest.preset_action := preset_action |}).
Proof.
  intros create texts image data prompt preset_action Hacc.
  rewrite (image_upload_run create texts image data prompt preset_action Hacc).
  now rewrite image_base64_run.
Qed.

Lemma upload_equals_base64_of_bytes_witness :
  accepted_upload
    {| content_type := Some "image/gif"; file_read := inr [x47; x49; x46]%byte |}
    [x47; x49; x46]%byte
  /\ run (image_upload_chat (stub_create "A gif.") stub_texts
            {| content_type := Some "image/gif";
               file_read := inr [x47; x49; x46]%byte |}
            (Some "what?") None)
     = run (image_base64_chat (stub_create "A gif.") stub_texts
              {| ImageAnalysisRequest.image_base64 := b64encode [x47; x49; x46]%byte;
                 ImageAnalysisRequest.prompt := Some "what?";
                 ImageAnalysisRequest.preset_action := None |}).
Proof.
  assert (Hacc : accepted_upload
    {| content_type := Some "image/gif"; file_read := inr [x47; x49; x46]%byte |}
    [x47; x49; x46]%byte)
    by (split; [exists "image/gif"; split; reflexivity | reflexivity]).
  split; [exact Hacc|].
  exact (upload_equals_base64_of_bytes (stub_create "A gif.") stub_texts
           {| content_type := Some "image/gif";
              file_read := inr [x47; x49; x46]%byte |}
           [x47; x49; x46]%byte (Some "what?") None Hacc).
Defined.

(** X9: on both image handlers, whatever the prompt and the preset key (also
    when they are absent or empty), the instruction sent upstream is never the
    empty string, and the tag of a response is never empty: it is "custom",
    "default", or the preset key that was given. *)
Theorem image_instruction_and_tag_never_empty :
  forall create texts image prompt preset_action b64,
    (exists text,
        snd (run (image_base64_chat create texts
                    {| ImageAnalysisRequest.image_base64 := b64;
                       ImageAnalysisRequest.prompt := prompt;
                       ImageAnalysisRequest.preset_action := preset_action |}))
        = [gpt4o_call (image_turns text b64)]
        /\ text <> "")
    /\ (forall call,
          In call (snd (run (image_upload_chat create texts image prompt
                               preset_action))) ->
          exists text payload,
            call = gpt4o_call (image_turns text payload) /\ text <> "")
    /\ (forall resp,
          fst (run (image_base64_chat create texts
                      {| ImageAnalysisRequest.image_base64 := b64;
                         ImageAnalysisRequest.prompt := prompt;
                         ImageAnalysisRequest.preset_action := preset_action |}))
            = inr resp
          \/ fst (run (image_upload_chat create texts image prompt
                         preset_action)) = inr resp ->
          ImageAnalysisResponse.analysis_type resp <> ""
          /\ (ImageAnalysisResponse.analysis_type resp = "custom"
              \/ ImageAnalysisResponse.analysis_type resp = "default"
              \/ preset_action = Some (ImageAnalysisResponse.analysis_type resp))).
Proof.
  intros create texts image prompt preset_action b64.
  destruct (select_nonempty preset_action prompt) as (Htext & Htag & Hkind).
  split; [|split].
  - exists (fst (spec_select_instruction preset_action prompt)).
    rewrite image_base64_run. split; [reflexivity | exact Htext].
  - intros call.
    destruct (content_type image) as [ct|] eqn:Hct;
      [destruct (startswith ct "image/") eqn:Hpre;
       [destruct (file_read image) as [e|data] eqn:Hread|]|].
    2:{ assert (Hacc : accepted_upload image data)
          by (split; [exists ct; split; assumption | assumption]).
        rewrite (image_upload_run create texts image data prompt
                   preset_action Hacc).
        cbn. intros [<-|[]]. eexists _, _. split; [reflexivity | exact Htext]. }
    all: unfold_handler; rewrite Hct; try rewrite Hpre; try rewrite Hread;
      repeat handler_step; cbn; intros [].
  - intros resp [H|H].
    + apply image_base64_tag in H. rewrite H. split; assumption.
    + apply image_upload_tag in H. rewrite H. split; assumption.
Qed.

(** X10: when the upstream gives no text to the call an image handler made
    (it raises an [Exception], answers with no choice, or the first choice has
    no content), the handler answers 500 with a detail that starts
    "Error processing image: ". *)
Theorem image_without_reply_is_500 :
  forall create texts image prompt preset_action request call,
    upstream_reply create call = None ->
    (forall e, create call = inl e -> is_Exception e = true) ->
    (snd (run (image_base64_chat create texts request)) = [call] ->
     exists detail,
       fst (run (image_base64_chat create texts request))
       = inl (HTTPException 500 ("Error processing image: " ++ detail)))
    /\ (snd (run (image_upload_chat create texts image prompt preset_action))
          = [call] ->
        exists detail,
          fst (run (image_upload_chat create texts image prompt preset_action))
          = inl (HTTPException 500 ("Error processing image: " ++ detail))).
Proof.
  intros create texts image prompt preset_action request call Hnone Hexc.
  assert (Hout : forall text tag payload,
             snd (image_outcome create texts text tag payload) = [call] ->
             exists detail,
               fst (image_outcome create texts text tag payload)
               = inl (HTTPException 500 ("Error processing image: " ++ detail))).
  { intros text tag payload. unfold image_outcome. cbn [fst snd].
    intros Hcall. injection Hcall as Hcall. rewrite Hcall.
    revert Hnone Hexc. unfold upstream_reply, first_content.
    destruct (create call) as [e|[chs]]; cbn [choices].
    - intros _ Hexc. rewrite (Hexc e eq_refl). now eexists.
    - destruct chs as [|c rest].
      + intros _ _. now eexists.
      + intros -> _. now eexists. }
  split.
  - destruct request as [b64 p a]. rewrite image_base64_run. apply Hout.
  - destruct (content_type image) as [ct|] eqn:Hct;
      [destruct (startswith ct "image/") eqn:Hpre;
       [destruct (file_read image) as [e|data] eqn:Hread|]|].
    2:{ assert (Hacc : accepted_upload image data)
          by (split; [exists ct; split; assumption | assumption]).
        rewrite (image_upload_run create texts image data prompt
                   preset_action Hacc).
        apply Hout. }
    all: unfold_handler; rewrite Hct; try rewrite Hpre; try rewrite Hread;
      repeat handler_step; cbn; discriminate.
Qed.

Lemma image_without_reply_is_500_witness :
  upstream_reply (fun _ => inr {| choices := [] |})
    (gpt4o_call (image_turns "Analyze this image" "TWFu")) = None
  /\ (forall e,
        (fun _ : CreateCall => @inr exn ChatCompletion {| choices := [] |})
          (gpt4o_call (image_turns "Analyze this image" "TWFu")) = inl e ->
        is_Exception e = true)
  /\ exists detail,
       fst (run (image_base64_chat (fun _ => inr {| choices := [] |}) stub_texts
                   {| ImageAnalysisRequest.image_base64 := "TWFu";
                      ImageAnalysisRequest.prompt := None;
                      ImageAnalysisRequest.preset_action := None |}))
       = inl (HTTPException 500 ("Error processing image: " ++ detail)).
Proof.
  assert (Hexc : forall e,
             (fun _ : CreateCall => @inr exn ChatCompletion {| choices := [] |})
               (gpt4o_call (image_turns "Analyze this image" "TWFu")) = inl e ->
             is_Exception e = true) by (intros e H; discriminate H).
  split; [reflexivity|]. split; [exact Hexc|].
  exact (proj1 (image_without_reply_is_500
                  (fun _ => inr {| choices := [] |}) stub_texts
                  {| content_type := None; file_read := inr [] |} None None
                  {| ImageAnalysisRequest.image_base64 := "TWFu";
                     ImageAnalysisRequest.prompt := None;
                     ImageAnalysisRequest.preset_action := None |}
                  (gpt4o_call (image_turns "Analyze this image" "TWFu"))
                  eq_refl Hexc) eq_refl).
Defined.

(** *** Uploads that cannot be used *)

(** X11: when reading the uploaded file raises an [Exception],
    [encode_image_to_base64] raises a 400 that quotes the error; inside the
    two handlers that read files this 400 is caught again and the request is
    answered with 500, without any upstream call. *)
Theorem upload_read_failure_is_500 :
  forall create json_loads texts image ct e prompt preset_action
         message history prior,
    content_type image = Some ct ->
    startswith ct "image/" = true ->
    file_read image = inl e ->
    is_Exception e = true ->
    starting_turns json_loads history = Some prior ->
    run (encode_image_to_base64 texts image)
      = (inl (HTTPException 400 ("Error processing image: " ++ str texts e)), [])
    /\ run (image_upload_chat create texts image prompt preset_action)
       = (inl (HTTPException 500
                 ("Error processing image: "
                  ++ str_HTTPException texts 400 ("Error processing image: " ++ str texts e)%string)),
          [])
    /\ run (multimodal_chat create json_loads texts message (Some image) history)
       = (inl (HTTPException 500
                 ("Error processing multimodal chat: "
                  ++ str_HTTPException texts 400 ("Error processing image: " ++ str texts e)%string)),
          []).
Proof.
  intros create json_loads texts image ct e prompt preset_action
    message history prior Hct Hpre Hread Hexc Hprior.
  split; [|split].
  - unfold_handler. now rewrite Hread, Hexc.
  - unfold_handler. rewrite Hct, Hpre, Hread. cbn. now rewrite Hexc.
  - revert Hprior. unfold starting_turns. unfold_handler.
    rewrite Hct, Hpre, Hread.
    destruct history as [s|]; [destruct (s =? "")|]; cbn; rewrite ?Hexc;
      try reflexivity.
    destruct (json_loads s) as [[]|[]]; try discriminate; cbn; rewrite ?Hexc;
      reflexivity.
Qed.

Lemma upload_read_failure_is_500_witness :
  content_type {| content_type := Some "image/png";
                  file_read := inl (OtherException "OSError" "closed file") |}
    = Some "image/png"
  /\ startswith "image/png" "image/" = true
  /\ is_Exception (OtherException "OSError" "closed file") = true
  /\ run (image_upload_chat (stub_create "ok") stub_texts
            {| content_type := Some "image/png";
               file_read := inl (OtherException "OSError" "closed file") |}
            None None)
     = (inl (HTTPException 500
               "Error processing image: 400: Error processing image: closed file"),
        []).
Proof.
  split; [reflexivity|]. split; [reflexivity|]. split; [reflexivity|].
  exact (proj1 (proj2
          (upload_read_failure_is_500 (stub_create "ok") stub_json_loads stub_texts
             {| content_type := Some "image/png";
                file_read := inl (OtherException "OSError" "closed file") |}
             "image/png" (OtherException "OSError" "closed file") None None
             "hi" None [] eq_refl eq_refl eq_refl eq_refl eq_refl))).
Defined.

(** X12: a file part that declares no content type makes both file handlers
    fail on the prefix test itself: the request is answered with 500 (an
    attribute error on [None]), the file is not read and the upstream is not
    called. *)
Theorem missing_content_type_is_500 :
  forall create json_loads texts image prompt preset_action
         message history prior,
    content_type image = None ->
    starting_turns json_loads history = Some prior ->
    run (image_upload_chat create texts image prompt preset_action)
      = (inl (HTTPException 500
                ("Error processing image: "
                 ++ "'NoneType' object has no attribute 'startswith'")), [])
    /\ run (multimodal_chat create json_loads texts message (Some image) history)
       = (inl (HTTPException 500
                 ("Error processing multimodal chat: "
                  ++ "'NoneType' object has no attribute 'startswith'")), []).
Proof.
  intros create json_loads texts image prompt preset_action
    message history prior Hct Hprior.
  split.
  - unfold_handler. now rewrite Hct.
  - revert Hprior. unfold starting_turns. unfold_handler. rewrite Hct.
    destruct history as [s|]; [destruct (s =? "")|]; try reflexivity.
    destruct (json_loads s) as [[]|[]]; try discriminate; reflexivity.
Qed.

Lemma missing_content_type_is_500_witness :
  content_type {| content_type := None; file_read := inr [x4d]%byte |} = None
  /\ starting_turns stub_json_loads (Some "[]") = Some []
  /\ run (multimodal_chat (stub_create "ok") stub_json_loads stub_texts "hi"
            (Some {| content_type := None; file_read := inr [x4d]%byte |})
            (Some "[]"))
     = (inl (HTTPException 500
               "Error processing multimodal chat: 'NoneType' object has no attribute 'startswith'"),
        []).
Proof.
  split; [reflexivity|]. split; [reflexivity|].
  exact (proj2
          (missing_content_type_is_500 (stub_create "ok") stub_json_loads stub_texts
             {| content_type := None; file_read := inr [x4d]%byte |} None None
             "hi" (Some "[]") [] eq_refl eq_refl)).
Defined.

(** X13: on the multimodal endpoint a file whose declared type does not
    start with "image/" is ignored without being read: the outcome does not
    depend on what reading it would give, and the upstream sees the same
    calls as for the same request without a file. *)
Theorem multimodal_non_image_file_is_ignored :
  forall create json_loads texts message history ct contents contents',
    startswith ct "image/" = false ->
    run (multimodal_chat create json_loads texts message
           (Some {| content_type := Some ct; file_read := contents |}) history)
    = run (multimodal_chat create json_loads texts message
             (Some {| content_type := Some ct; file_read := contents' |}) history)
    /\ snd (run (multimodal_chat create json_loads texts message
                   (Some {| content_type := Some ct; file_read := contents |})
                   history))
       = snd (run (multimodal_chat create json_loads texts message None history)).
Proof.
  intros create json_loads texts message history ct contents contents' Hpre.
  split.
  - unfold_handler. cbn [content_type file_read]. now rewrite Hpre.
  - unfold_handler. cbn [content_type file_read]. rewrite Hpre.
    repeat break_match; reflexivity.
Qed.

Lemma multimodal_non_image_file_is_ignored_witness :
  startswith "application/pdf" "image/" = false
  /\ snd (run (multimodal_chat (stub_create "ok") stub_json_loads stub_texts "hi"
                 (Some {| content_type := Some "application/pdf";
                          file_read := inr [x25; x50]%byte |}) None))
     = snd (run (multimodal_chat (stub_create "ok") stub_json_loads stub_texts "hi"
                   None None)).
Proof.
  split; [reflexivity|].
  exact (proj2
          (multimodal_non_image_file_is_ignored
             (stub_create "ok") stub_json_loads stub_texts "hi" None
             "application/pdf" (inr [x25; x50]%byte) (inr []) eq_refl)).
Defined.

(** *** The history of [/chat/multimodal] *)

(** X14: a history string that is valid JSON but not a list (an object, a
    string, a number, a boolean, null) is not tolerated the way an unparsable
    one is: appending the new turn raises, and the request is answered with
    500 naming the type, without any upstream call. *)
Theorem multimodal_non_list_history_is_500 :
  forall create json_loads texts message image s v parts flag,
    s <> "" ->
    json_loads s = inr v ->
    (forall items, v <> JArr items) ->
    multimodal_parts message image = Some (parts, flag) ->
    run (multimodal_chat create json_loads texts message image (Some s))
    = (inl (HTTPException 500
              ("Error processing multimodal chat: "
               ++ ("'" ++ type_name v ++ "' object has no attribute 'append'"))),
       []).
Proof.
  intros create json_loads texts message image s v parts flag Hs Hv Hnl Hparts.
  revert Hparts. unfold multimodal_parts. unfold_handler.
  destruct (String.eqb_spec s "") as [->|_]; [contradiction|].
  rewrite Hv.
  destruct image as [img|];
    [destruct (content_type img) as [ct|];
     [destruct (startswith ct "image/");
      [destruct (file_read img) as [e|data]|]|]|];
    intros Hparts; try discriminate Hparts.
  all: destruct v; try reflexivity; exfalso; eapply Hnl; reflexivity.
Qed.

Lemma multimodal_non_list_history_is_500_witness :
  "{}" <> ""
  /\ (fun s => if s =? "{}" then inr (JObj []) else stub_json_loads s) "{}"
     = inr (JObj [])
  /\ (forall items, JObj [] <> JArr items)
  /\ multimodal_parts "hi" None = Some ([text_part "hi"], false)
  /\ run (multimodal_chat (stub_create "ok")
            (fun s => if s =? "{}" then inr (JObj []) else stub_json_loads s)
            stub_texts "hi" None (Some "{}"))
     = (inl (HTTPException 500
               "Error processing multimodal chat: 'dict' object has no attribute 'append'"),
        []).
Proof.
  assert (Hs : "{}" <> "") by discriminate.
  assert (Hnl : forall items, JObj [] <> JArr items) by discriminate.
  split; [exact Hs|]. split; [reflexivity|]. split; [exact Hnl|].
  split; [reflexivity|].
  exact (multimodal_non_list_history_is_500 (stub_create "ok")
           (fun s => if s =? "{}" then inr (JObj []) else stub_json_loads s)
           stub_texts "hi" None "{}" (JObj []) [text_part "hi"] false
           Hs eq_refl Hnl eq_refl).
Defined.

(** X15: only the decode error of the parser is tolerated: when parsing a
    non-empty history string raises any other [Exception], the request is
    answered with 500 quoting that error, whatever the file part; the file is
    not looked at and the upstream is not called. *)
Theorem multimodal_other_parse_error_is_500 :
  forall create json_loads texts message image s e,
    s <> "" ->
    json_loads s = inl e ->
    (forall msg, e <> JSONDecodeError msg) ->
    is_Exception e = true ->
    run (multimodal_chat create json_loads texts message image (Some s))
    = (inl (HTTPException 500
              ("Error processing multimodal chat: " ++ str texts e)), []).
Proof.
  intros create json_loads texts message image s e Hs He Hnd Hexc.
  unfold_handler.
  destruct (String.eqb_spec s "") as [->|_]; [contradiction|].
  rewrite He.
  destruct e; try reflexivity; [|discriminate Hexc].
  exfalso; eapply Hnd; reflexivity.
Qed.

Lemma multimodal_other_parse_error_is_500_witness :
  "[[[[" <> ""
  /\ (fun _ : string =>
        @inl exn json (OtherException "RecursionError" "maximum recursion depth exceeded"))
       "[[[[" = inl (OtherException "RecursionError" "maximum recursion depth exceeded")
  /\ is_Exception (OtherException "RecursionError" "maximum recursion depth exceeded")
     = true
  /\ run (multimodal_chat (stub_create "ok")
            (fun _ => inl (OtherException "RecursionError"
                             "maximum recursion depth exceeded"))
            stub_texts "hi" None (Some "[[[["))
     = (inl (HTTPException 500
               "Error processing multimodal chat: maximum recursion depth exceeded"),
        []).
Proof.
  assert (Hs : "[[[[" <> "") by discriminate.
  assert (Hnd : forall msg,
             OtherException "RecursionError" "maximum recursion depth exceeded"
             <> JSONDecodeError msg) by discriminate.
  split; [exact Hs|]. split; [reflexivity|]. split; [reflexivity|].
  exact (multimodal_other_parse_error_is_500 (stub_create "ok")
           (fun _ => inl (OtherException "RecursionError"
                            "maximum recursion depth exceeded"))
           stub_texts "hi" None "[[[["
           (OtherException "RecursionError" "maximum recursion depth exceeded")
           Hs eq_refl Hnd eq_refl).
Defined.

(** X16: when the history parses to a list, [multimodal_chat] sends that list
    followed by the new user turn, and, as soon as the upstream answers with
    at least one choice, returns the list followed by the user turn and the
    assistant turn.  The prior elements are passed through as they are,
    whatever their shape; the reply may be absent, in which case the
    response and the content of the assistant turn are null. *)
Theorem multimodal_appends_to_parsed_history :
  forall create json_loads texts message image s prior parts flag c rest,
    s <> "" ->
    json_loads s = inr (JArr prior) ->
    multimodal_parts message image = Some (parts, flag) ->
    create (gpt4o_call (JArr (prior ++ [user_turn parts])))
      = inr {| choices := c :: rest |} ->
    run (multimodal_chat create json_loads texts message image (Some s))
    = (inr {| MultimodalResponse.response := message_content c;
              MultimodalResponse.conversation_history :=
                JArr (prior
                      ++ [user_turn parts;
                          JObj [("role", JStr "assistant");
                                ("content", opt_str (message_content c))]]);
              MultimodalResponse.has_image := flag |},
       [gpt4o_call (JArr (prior ++ [user_turn parts]))]).
Proof.
  intros create json_loads texts message image s prior parts flag c rest
    Hs Hv Hparts Hc.
  assert (Hprior : starting_turns json_loads (Some s) = Some prior).
  { unfold starting_turns. rewrite (truthy_str_some s Hs), Hv. reflexivity. }
  rewrite (multimodal_run create json_loads texts message image (Some s)
             prior parts flag Hprior Hparts).
  unfold multimodal_outcome. cbv zeta. rewrite Hc.
  cbn [first_content choices]. rewrite <- app_assoc. reflexivity.
Qed.

Lemma multimodal_appends_to_parsed_history_witness :
  "[1]" <> ""
  /\ (fun s => if s =? "[1]" then inr (JArr [JInt 1]) else stub_json_loads s) "[1]"
     = inr (JArr [JInt 1])
  /\ run (multimodal_chat (stub_create "ok")
            (fun s => if s =? "[1]" then inr (JArr [JInt 1]) else stub_json_loads s)
            stub_texts "hi" None (Some "[1]"))
     = (inr {| MultimodalResponse.response := Some "ok";
               MultimodalResponse.conversation_history :=
                 JArr [JInt 1; user_turn [text_part "hi"];
                       JObj [("role", JStr "assistant"); ("content", JStr "ok")]];
               MultimodalResponse.has_image := false |},
        [gpt4o_call (JArr [JInt 1; user_turn [text_part "hi"]])]).
Proof.
  assert (Hs : "[1]" <> "") by discriminate.
  split; [exact Hs|]. split; [reflexivity|].
  exact (multimodal_appends_to_parsed_history (stub_create "ok")
           (fun s => if s =? "[1]" then inr (JArr [JInt 1]) else stub_json_loads s)
           stub_texts "hi" None "[1]" [JInt 1] [text_part "hi"] false
           {| message_content := Some "ok" |} [] Hs eq_refl eq_refl eq_refl).
Defined.

(** X17: an upstream answer whose first choice has no content is handled
    differently by the handlers: [text_chat] and [image_base64_chat], whose
    response models require a string, answer 500; [multimodal_chat], which
    returns a plain dict, answers 200 with a null response. *)
Theorem null_content_splits_the_handlers :
  forall create json_loads texts m request,
    (forall call, create call = inr {| choices := [{| message_content := None |}] |}) ->
    http_status
      (fst (run (text_chat create texts
                   {| TextChatRequest.message := m;
                      TextChatRequest.conversation_history := None |}))) = 500
    /\ http_status (fst (run (image_base64_chat create texts request))) = 500
    /\ run (multimodal_chat create json_loads texts m None None)
       = (inr {| MultimodalResponse.response := None;
                 MultimodalResponse.conversation_history :=
                   JArr [user_turn [text_part m];
                         JObj [("role", JStr "assistant"); ("content", JNull)]];
                 MultimodalResponse.has_image := false |},
          [gpt4o_call (JArr [user_turn [text_part m]])]).
Proof.
  intros create json_loads texts m request Hnull.
  split; [|split].
  - rewrite text_chat_run. cbv zeta. now rewrite Hnull.
  - destruct request as [b64 p a]. rewrite image_base64_run.
    unfold image_outcome. cbv zeta. now rewrite Hnull.
  - rewrite (multimodal_run create json_loads texts m None None
               [] [text_part m] false eq_refl eq_refl).
    unfold multimodal_outcome. cbv zeta. now rewrite Hnull.
Qed.

Lemma null_content_splits_the_handlers_witness :
  (forall call : CreateCall,
      (fun _ : CreateCall =>
         @inr exn ChatCompletion {| choices := [{| message_content := None |}] |}) call
      = inr {| choices := [{| message_content := None |}] |})
  /\ http_status
       (fst (run (text_chat
                    (fun _ => inr {| choices := [{| message_content := None |}] |})
                    stub_texts
                    {| TextChatRequest.message := "hi";
                       TextChatRequest.conversation_history := None |}))) = 500.
Proof.
  split; [reflexivity|].
  exact (proj1
          (null_content_splits_the_handlers
             (fun _ => inr {| choices := [{| message_content := None |}] |})
             stub_json_loads stub_texts "hi"
             {| ImageAnalysisRequest.image_base64 := "TWFu";
                ImageAnalysisRequest.prompt := None;
                ImageAnalysisRequest.preset_action := None |}
             (fun _ => eq_refl))).
Defined.

(** *** The base64 text *)

Lemma string_get_In (s : string) (n : nat) (c : ascii) :
  String.get n s = Some c -> In c (list_ascii_of_string s).
Proof.
  revert n. induction s as [|a s IH]; intros n; cbn; [discriminate|].
  destruct n as [|n].
  - intros H; injection H as ->. now left.
  - intros H. right. now apply (IH n).
Qed.

Lemma b64_char_range (n : N) :
  In (b64_char n) (list_ascii_of_string b64_alphabet) \/ b64_char n = "="%char.
Proof.
  unfold b64_char.
  destruct (String.get (N.to_nat n) b64_alphabet) as [c|] eqn:Hget.
  - left. now apply string_get_In in Hget.
  - now right.
Qed.

Lemma b64encode_shape (n : nat) :
  forall data, length data <= n ->
    String.length (b64encode data) = 4 * ((length data + 2) / 3)
    /\ forall c, In c (list_ascii_of_string (b64encode data)) ->
         In c (list_ascii_of_string b64_alphabet) \/ c = "="%char.
Proof.
  induction n as [|n IH]; intros data Hlen.
  - destruct data; [|cbn in Hlen; lia]. split; [reflexivity | intros c []].
  - destruct data as [|a [|b [|c rest]]].
    + split; [reflexivity | intros c []].
    + split; [reflexivity|].
      cbn [b64encode list_ascii_of_string In]. intros c H.
      repeat (destruct H as [<-|H]; [first [apply b64_char_range | now right]|]).
      contradiction.
    + split; [reflexivity|].
      cbn [b64encode list_ascii_of_string In]. intros c' H.
      repeat (destruct H as [<-|H]; [first [apply b64_char_range | now right]|]).
      contradiction.
    + destruct (IH rest) as [Hl Hc]; [cbn in Hlen; lia|].
      split.
      * cbn [b64encode String.length length]. rewrite Hl.
        replace (S (S (S (length rest))) + 2) with ((length rest + 2) + 1 * 3) by lia.
        rewrite Nat.div_add by lia. lia.
      * cbn [b64encode list_ascii_of_string In]. intros c' H.
        repeat (destruct H as [<-|H]; [apply b64_char_range|]).
        now apply Hc.
Qed.

(** X18: for a readable file of n bytes, [encode_image_to_base64] returns,
    without any upstream call, a text of 4 * ceil(n / 3) characters, each of
    them a letter of the base64 alphabet or the padding sign "=". *)
Theorem encode_image_to_base64_shape :
  forall texts image data,
    file_read image = inr data ->
    run (encode_image_to_base64 texts image) = (inr (b64encode data), [])
    /\ String.length (b64encode data) = 4 * ((length data + 2) / 3)
    /\ (forall c, In c (list_ascii_of_string (b64encode data)) ->
          In c (list_ascii_of_string b64_alphabet) \/ c = "="%char).
Proof.
  intros texts image data Hread.
  split.
  - unfold_handler. now rewrite Hread.
  - apply (b64encode_shape (length data)). lia.
Qed.

Lemma encode_image_to_base64_shape_witness :
  file_read {| content_type := Some "image/png"; file_read := inr [x89; x50; x4e; x47]%byte |}
    = inr [x89; x50; x4e; x47]%byte
  /\ run (encode_image_to_base64 stub_texts
            {| content_type := Some "image/png";
               file_read := inr [x89; x50; x4e; x47]%byte |})
     = (inr "iVBORw==", [])
  /\ String.length "iVBORw==" = 8.
Proof.
  split; [reflexivity|].
  destruct (encode_image_to_base64_shape stub_texts
              {| content_type := Some "image/png";
                 file_read := inr [x89; x50; x4e; x47]%byte |}
              [x89; x50; x4e; x47]%byte eq_refl) as (Hrun & Hlen & _).
  split; [exact Hrun | exact Hlen].
Defined.

(** *** Concrete runs of the general statements *)

Lemma handlers_fail_with_500_or_pass_through_witness :
  fst (run (text_chat
              (fun _ => inl (NonException "CancelledError" ""))
              stub_texts
              {| TextChatRequest.message := "hi";
                 TextChatRequest.conversation_history := None |}))
  = inl (NonException "CancelledError" "")
  /\ ((exists d, NonException "CancelledError" "" = HTTPException 500 d)
      \/ (is_Exception (NonException "CancelledError" "") = false
          /\ exists call,
               (fun _ : CreateCall =>
                  @inl exn ChatCompletion (NonException "CancelledError" "")) call
               = inl (NonException "CancelledError" ""))).
Proof.
  split; [reflexivity|].
  exact (proj1
          (handlers_fail_with_500_or_pass_through
             (fun _ => inl (NonException "CancelledError" ""))
             stub_json_loads stub_texts)
          {| TextChatRequest.message := "hi";
             TextChatRequest.conversation_history := None |}
          (NonException "CancelledError" "") eq_refl).
Defined.

Lemma handlers_call_upstream_once_witness :
  fst (run (multimodal_chat (stub_create "ok") stub_json_loads stub_texts
              "hi" None (Some "[]")))
  = inr {| MultimodalResponse.response := Some "ok";
           MultimodalResponse.conversation_history :=
             JArr [user_turn [text_part "hi"];
                   JObj [("role", JStr "assistant"); ("content", JStr "ok")]];
           MultimodalResponse.has_image := false |}
  /\ length (snd (run (multimodal_chat (stub_create "ok") stub_json_loads
                         stub_texts "hi" None (Some "[]")))) = 1.
Proof.
  split; [reflexivity|].
  exact (proj2 (proj2 (proj2 (proj2
          (handlers_call_upstream_once (stub_create "ok") stub_json_loads
             stub_texts)))
          "hi" None (Some "[]")) _ eq_refl).
Defined.

Lemma image_instruction_and_tag_never_empty_witness :
  fst (run (image_base64_chat (stub_create "ok") stub_texts
              {| ImageAnalysisRequest.image_base64 := "TWFu";
                 ImageAnalysisRequest.prompt := Some "";
                 ImageAnalysisRequest.preset_action := Some "" |}))
  = inr {| ImageAnalysisResponse.response := "ok";
           ImageAnalysisResponse.analysis_type := "default" |}
  /\ ImageAnalysisResponse.analysis_type
       {| ImageAnalysisResponse.response := "ok";
          ImageAnalysisResponse.analysis_type := "default" |} <> "".
Proof.
  split; [reflexivity|].
  exact (proj1 (proj2 (proj2
          (image_instruction_and_tag_never_empty (stub_create "ok") stub_texts
             {| content_type := None; file_read := inr [] |}
             (Some "") (Some "") "TWFu"))
          {| ImageAnalysisResponse.response := "ok";
             ImageAnalysisResponse.analysis_type := "default" |}
          (or_introl eq_refl))).
Defined.

(** *** Remaining edge cases *)

(** X19: an empty history string on the multimodal endpoint is the same as
    no history: the parser is not consulted (the outcome is the same for any
    two parsers), although the empty string is not valid JSON. *)
Theorem multimodal_empty_history_string_is_no_history :
  forall create json_loads json_loads' texts message image,
    run (multimodal_chat create json_loads texts message image (Some ""))
    = run (multimodal_chat create json_loads' texts message image None).
Proof.
  intros create json_loads json_loads' texts message image.
  unfold run, multimodal_chat. cbn [truthy_str String.eqb]. reflexivity.
Qed.

(** X20: every upstream call made by any of the four handlers asks for the
    model "gpt-4o" with [max_tokens] 2048 and [temperature] 0.7, whatever the
    request. *)
Theorem every_call_uses_gpt4o :
  forall create json_loads texts call,
    (forall request,
        In call (snd (run (text_chat create texts request))) ->
        model call = "gpt-4o" /\ max_tokens call = 2048%Z
        /\ temperature call = (7 # 10)%Q)
    /\ (forall request,
          In call (snd (run (image_base64_chat create texts request))) ->
          model call = "gpt-4o" /\ max_tokens call = 2048%Z
          /\ temperature call = (7 # 10)%Q)
    /\ (forall image prompt preset_action,
          In call (snd (run (image_upload_chat create texts image prompt
                               preset_action))) ->
          model call = "gpt-4o" /\ max_tokens call = 2048%Z
          /\ temperature call = (7 # 10)%Q)
    /\ (forall message image history,
          In call (snd (run (multimodal_chat create json_loads texts message
                               image history))) ->
          model call = "gpt-4o" /\ max_tokens call = 2048%Z
          /\ temperature call = (7 # 10)%Q).
Proof.
  intros create json_loads texts call.
  split; [|split; [|split]].
  - intros [m h]. rewrite text_chat_run. cbn. intros [<-|[]]. now repeat split.
  - intros [b64 p a]. rewrite image_base64_run. cbn. intros [<-|[]].
    now repeat split.
  - intros image prompt preset_action.
    unfold_handler. repeat break_match.
    all: cbn [fst snd app In]; intros H;
      repeat (destruct H as [<-|H]; [now repeat split|]); contradiction.
  - intros message image history.
    unfold_handler. repeat break_match.
    all: cbn [fst snd app In]; intros H;
      repeat (destruct H as [<-|H]; [now repeat split|]); contradiction.
Qed.

Lemma every_call_uses_gpt4o_witness :
  In (gpt4o_call (JArr [JObj (user_text_turn "hi")]))
     (snd (run (text_chat (stub_create "ok") stub_texts
                  {| TextChatRequest.message := "hi";
                     TextChatRequest.conversation_history := None |})))
  /\ model (gpt4o_call (JArr [JObj (user_text_turn "hi")])) = "gpt-4o".
Proof.
  assert (Hin : In (gpt4o_call (JArr [JObj (user_text_turn "hi")]))
     (snd (run (text_chat (stub_create "ok") stub_texts
                  {| TextChatRequest.message := "hi";
                     TextChatRequest.conversation_history := None |}))))
    by (left; reflexivity).
  split; [exact Hin|].
  exact (proj1 (proj1
          (every_call_uses_gpt4o (stub_create "ok") stub_json_loads stub_texts
             (gpt4o_call (JArr [JObj (user_text_turn "hi")])))
          {| TextChatRequest.message := "hi";
             TextChatRequest.conversation_history := None |} Hin)).
Defined.
